(** * huskyCI: container lifecycle controller and RetireJS result evaluator

    A shallow embedding of [api/container/container.go] and
    [analysis/retirejs.go], and the properties of the two that the
    specification states.

    Go strings are byte strings: they are [string] here, one [ascii] per
    byte.  Everything the Go code does to the outside world (the Docker
    daemon, the analysis database, the loggers, the process environment,
    the clock) is made explicit: the answers of the outside world are
    parameters of the model, and every call is recorded in a trace. *)

From Stdlib Require Import String Ascii List ZArith NArith Bool Lia.
From stdpp Require Import base option gmap strings.

Import ListNotations.
Local Open Scope string_scope.
Local Open Scope list_scope.

(** Go's [error] values are carried by their message. *)
Definition Error := string.

(** ** The part of Go's [strings] package the code uses *)

Module strings.

(** [strings.HasPrefix(s, prefix)] *)
Fixpoint HasPrefix (s prefix : string) {struct prefix} : bool :=
  match prefix, s with
  | EmptyString, _ => true
  | String _ _, EmptyString => false
  | String p prefix', String c s' => Ascii.eqb c p && HasPrefix s' prefix'
  end.

(** [strings.Contains(s, substr)] *)
Fixpoint Contains (s substr : string) : bool :=
  HasPrefix s substr ||
  match s with
  | EmptyString => false
  | String _ s' => Contains s' substr
  end.

(** The remaining number of replacements: [None] is "no limit". *)
Definition spend (limit : option nat) : option nat :=
  match limit with
  | None => None
  | Some k => Some (Nat.pred k)
  end.

Definition exhausted (limit : option nat) : bool :=
  match limit with
  | Some O => true
  | _ => false
  end.

(** The scan of [strings.Replace] for a non-empty [old]: occurrences are
    taken leftmost first and do not overlap.  [skip] counts the bytes of
    the occurrence just replaced that are still to be passed over. *)
Fixpoint replace_from (old new : string) (limit : option nat)
         (skip : nat) (s : string) : string :=
  match s with
  | EmptyString => EmptyString
  | String c s' =>
      match skip with
      | S k => replace_from old new limit k s'
      | O =>
          if negb (exhausted limit) && HasPrefix s old
          then new ++ replace_from old new (spend limit) (Nat.pred (String.length old)) s'
          else String c (replace_from old new limit O s')
      end
  end.

(** For an empty [old], Go inserts [new] in front of every UTF-8 sequence
    and at the end of the string; bytes stand for sequences here (the
    call sites of this program pass a non-empty constant). *)
Fixpoint interleave (new : string) (limit : option nat) (s : string) : string :=
  if exhausted limit then s
  else match s with
       | EmptyString => new
       | String c s' => new ++ String c (interleave new (spend limit) s')
       end.

(** [strings.Replace(s, old, new, n)]; a negative [n] means no limit. *)
Definition Replace (s old new : string) (n : Z) : string :=
  let limit := if (n <? 0)%Z then None else Some (Z.to_nat n) in
  match old with
  | EmptyString => interleave new limit s
  | String _ _ => replace_from old new limit O s
  end.

End strings.

(** ** The RetireJS result evaluator ([analysis/retirejs.go]) *)

Module analysis.

(** RetirejsIdentifier is a struct that holds details on the
    vulnerabilities found. *)
Record RetirejsIdentifier := {
  IssueFound : string;
  Summary : string;
  CVE : list string;
}.

(** RetirejsVulnerability is a struct that holds info on what
    vulnerabilies were found. *)
Record RetirejsVulnerability := {
  Info : list string;
  Below : string;
  Severity : string;
  RetirejsIdentifiers : RetirejsIdentifier;
}.

(** RetirejsResult is a struct that holds the vulnerabilities found on a
    component being used by the code being analysed. *)
Record RetirejsResult := {
  Version : string;
  Component : string;
  Detection : string;
  RetirejsVulnerabilities : list RetirejsVulnerability;
}.

(** RetirejsIssue is a struct that holds the results that were scanned
    and the file they came from. *)
Record RetirejsIssue := {
  File : string;
  RetirejsResults : list RetirejsResult;
}.

(** RetirejsOutput is the struct that holds issues, messages and errors
    found on a Retire scan ([json.RawMessage] is the raw text). *)
Record RetirejsOutput := {
  RetirejsIssues : list RetirejsIssue;
  Messages : string;
  Errors : string;
}.

(** [bson.M] and [map[string]interface{}]: documents with string keys
    whose values are strings or documents. *)
#[warnings="-register-all"] Inductive Bson :=
| BString (s : string)
| BDoc (m : gmap string Bson).

(** What the evaluator does to its collaborators, in program order. *)
Inductive Effect :=
| Unmarshal (data : string)
| UpdateOne (query update : gmap string Bson)
| SendLog (extra : gmap string Bson) (level : string) (messages : list string)
| Println (args : list string).

Section Evaluator.

(** [json.Unmarshal] into a [RetirejsOutput]. *)
Variable json_Unmarshal : string -> Error + RetirejsOutput.
(** The persistence gateway: [UpdateOneDBAnalysisContainer]. *)
Variable UpdateOneDBAnalysisContainer :
  gmap string Bson -> gmap string Bson -> option Error.
(** The logging sink: [glbgelf.Logger.SendLog]. *)
Variable Logger_SendLog :
  gmap string Bson -> string -> list string -> option Error.

(** [if errLog := glbgelf.Logger.SendLog(...); errLog != nil
      { fmt.Println("glbgelf error: ", errLog) }] *)
Definition log_error (messages : list string) : list Effect :=
  let extra : gmap string Bson :=
    {[ "action" := BString "RetirejsStartAnalysis"; "info" := BString "RETIREJS" ]} in
  SendLog extra "ERROR" messages ::
  match Logger_SendLog extra "ERROR" messages with
  | Some errLog => [Println ["glbgelf error: "; errLog]]
  | None => []
  end.

(** The database call and the log of its failure. *)
Definition update_and_report (analysisQuery update : gmap string Bson)
  : list Effect :=
  UpdateOne analysisQuery update ::
  match UpdateOneDBAnalysisContainer analysisQuery update with
  | Some err =>
      log_error ["Error updating AnalysisCollection (inside retirejs.go):"; err]
  | None => []
  end.

(** The innermost loop of step 2, with its [break]. *)
Fixpoint scan_vulnerabilities (vulnerabilities : list RetirejsVulnerability)
         (cResult : string) : string :=
  match vulnerabilities with
  | [] => cResult
  | vulnerability :: rest =>
      if String.eqb (Severity vulnerability) "high"
         || String.eqb (Severity vulnerability) "medium"
      then "failed"
      else scan_vulnerabilities rest cResult
  end.

(** [for _, result := range issue.RetirejsResults] *)
Definition scan_results (results : list RetirejsResult) (cResult : string)
  : string :=
  fold_left
    (fun cResult result =>
       scan_vulnerabilities (RetirejsVulnerabilities result) cResult)
    results cResult.

(** [for _, issue := range retirejsOutput.RetirejsIssues] *)
Definition scan_issues (issues : list RetirejsIssue) (cResult : string)
  : string :=
  fold_left
    (fun cResult issue => scan_results (RetirejsResults issue) cResult)
    issues cResult.

(** RetirejsStartAnalysis analyses the output from RetireJS and sets
    cResult based on it. *)
Definition RetirejsStartAnalysis (CID cOutput : string) : list Effect :=
  let analysisQuery : gmap string Bson := {[ "containers.CID" := BString CID ]} in
  (* step 0.1: error cloning repository! *)
  if strings.Contains cOutput "ERROR_CLONING" then
    let errorOutput := ("Container error: " ++ cOutput)%string in
    let updateContainerAnalysisQuery : gmap string Bson :=
      {[ "$set" := BDoc {[ "containers.$.cOutput" := BString errorOutput;
                           "containers.$.cResult" := BString "failed" ]} ]} in
    update_and_report analysisQuery updateContainerAnalysisQuery
  else
    (* step 1: Unmarshall cOutput into RetireOutput struct. *)
    Unmarshal cOutput ::
    match json_Unmarshal cOutput with
    | inl err =>
        log_error ["Unmarshall error (inside retirejs.go):"; err]
        ++ log_error [cOutput]
    | inr retirejsOutput =>
        (* step 1.1: "No issues found" if RetirejsIssues is empty *)
        if Nat.eqb (List.length (RetirejsIssues retirejsOutput)) 0 then
          let updateContainerAnalysisQuery : gmap string Bson :=
            {[ "$set" := BDoc {[ "containers.$.cOutput" := BString "No issues found." ]} ]} in
          update_and_report analysisQuery updateContainerAnalysisQuery
        else
          (* step 2: find Vulnerabilities that have severity "medium" or "high". *)
          let cResult := scan_issues (RetirejsIssues retirejsOutput) "passed" in
          (* step 3: update analysis' cResult into AnalyisCollection. *)
          let updateContainerAnalysisQuery : gmap string Bson :=
            {[ "$set" := BDoc {[ "containers.$.cResult" := BString cResult ]} ]} in
          update_and_report analysisQuery updateContainerAnalysisQuery
    end.

End Evaluator.

(** The database writes of a run, in order. *)
Definition updates (trace : list Effect)
  : list (gmap string Bson * gmap string Bson) :=
  flat_map (fun e => match e with UpdateOne q u => [(q, u)] | _ => [] end) trace.

(** The parse attempts of a run. *)
Definition parse_attempts (trace : list Effect) : list string :=
  flat_map (fun e => match e with Unmarshal d => [d] | _ => [] end) trace.

(** The value an update document sets for [field], if it sets one. *)
Definition field_set (update : gmap string Bson) (field : string) : option Bson :=
  match update !! "$set" with
  | Some (BDoc fields) => fields !! field
  | _ => None
  end.

(** Every vulnerability of an output, issue by issue. *)
Definition vulnerabilities_of (out : RetirejsOutput) : list RetirejsVulnerability :=
  flat_map (fun issue => flat_map RetirejsVulnerabilities (RetirejsResults issue))
           (RetirejsIssues out).

(** The comparison of step 2, as a test on one vulnerability. *)
Definition fails (v : RetirejsVulnerability) : bool :=
  String.eqb (Severity v) "high" || String.eqb (Severity v) "medium".

End analysis.

(** ** The Docker daemon, the environment and the clock *)

Module docker.

(** [container.Config], the fields the program sets. *)
Record Config := {
  Image : string;
  Tty : bool;
  Cmd : list string;
}.

(** [*client.Client]: what [client.NewEnvClient] read in the environment. *)
Record Client := {
  host : string;
  certPath : string;
  tlsVerify : string;
}.

Inductive Level := INFO | ERROR.

(** The values handed to the logger after the message code. *)
Inductive Arg :=
| AStr (s : string)
| AInt (z : Z)
| AErr (err : option Error).

(** The calls that leave the program. *)
Inductive Event :=
| Setenv (key value : string)
| NewEnvClient
| ImageList (reference : string)
| ImagePull (ref : string)
| ContainerCreate (config : Config)
| ContainerStart (containerID : string)
| ContainerWait (containerID : string)
| ContainerLogs (containerID : string) (ShowStdout ShowStderr : bool)
| ContainerRemove (containerID : string)
| Log (level : Level) (action info : string) (msgCode : Z) (message : list Arg).

(** The answers of the outside world.  A daemon call is answered by its
    position [n] in the sequence of daemon calls of the run, so that the
    same request may be answered differently later on (an image that
    arrives).  [round_trip n] is the time call [n] takes, in nanoseconds;
    [select_timeout n] is the case Go's [select] picks the [n]-th time it
    runs when both of its channels are ready ([true]: the timeout). *)
Record Daemon := {
  Setenv_err : string -> string -> option Error;
  NewEnvClient_err : gmap string string -> option Error;
  ImageList_ans : nat -> string -> Error + list string;
  ImagePull_ans : nat -> string -> option Error;
  ContainerCreate_ans : nat -> Config -> Error + string;
  ContainerStart_ans : nat -> string -> option Error;
  ContainerWait_ans : nat -> string -> Z * option Error;
  ContainerLogs_ans : nat -> string -> bool -> bool -> Error + (Error + string);
  ContainerRemove_ans : nat -> string -> option Error;
  round_trip : nat -> N;
  select_timeout : nat -> bool;
}.

End docker.

(** ** The container lifecycle controller ([api/container/container.go]) *)

Module container.

Import docker.

(** Instants and durations, in nanoseconds; [0] is the zero [time.Time]. *)
Definition Second : N := 1000000000.
Definition Minute : N := 60 * Second.

(** Image is the struct that holds all information regarding a container
    image. *)
Record Image := {
  CanonicalURL : string;
  Name : string;
  Tag : string;
}.

(** Container holds all information regarding a container. *)
Record Container := {
  dockerClient : option Client;
  CID : string;
  Status : string;
  Command : string;
  Output : string;
  Image_ : Image;
  StartedAt : N;
  FinishedAt : N;
}.

(** The receiver [c] of the methods together with the world around it. *)
Record State := {
  c : Container;
  now : N;
  env : gmap string string;
  trace : list (N * Event);
  calls : nat;
  selects : nat;
}.

(** How a method ends: it returns, it dereferences a nil [dockerClient],
    or its loop was cut short of fuel. *)
Inductive Outcome (A : Type) :=
| Returns (a : A) (s : State)
| Panics (s : State)
| OutOfFuel.

Arguments Returns {A} a s.
Arguments Panics {A} s.
Arguments OutOfFuel {A}.

Definition M (A : Type) : Type := State -> Outcome A.

Definition ret {A} (a : A) : M A := fun s => Returns a s.

Definition bind {A B} (m : M A) (k : A -> M B) : M B :=
  fun s =>
    match m s with
    | Returns a s' => k a s'
    | Panics s' => Panics s'
    | OutOfFuel => OutOfFuel
    end.

Declare Scope go_scope.
Delimit Scope go_scope with go.
Notation "x <- m ;; k" := (bind m (fun x => k))
  (at level 100, m at next level, right associativity) : go_scope.
Notation "m ;; k" := (bind m (fun _ => k))
  (at level 100, right associativity) : go_scope.
Local Open Scope go_scope.

Definition gets {A} (f : State -> A) : M A := fun s => Returns (f s) s.
Definition modify (f : State -> State) : M unit := fun s => Returns tt (f s).

(** Field assignments. *)
Definition with_c (f : Container -> Container) (s : State) : State :=
  {| c := f (c s); now := now s; env := env s; trace := trace s;
     calls := calls s; selects := selects s |}.
Definition with_now (t : N) (s : State) : State :=
  {| c := c s; now := t; env := env s; trace := trace s;
     calls := calls s; selects := selects s |}.
Definition with_env (e : gmap string string) (s : State) : State :=
  {| c := c s; now := now s; env := e; trace := trace s;
     calls := calls s; selects := selects s |}.
Definition with_trace (tr : list (N * Event)) (s : State) : State :=
  {| c := c s; now := now s; env := env s; trace := tr;
     calls := calls s; selects := selects s |}.
Definition with_calls (n : nat) (s : State) : State :=
  {| c := c s; now := now s; env := env s; trace := trace s;
     calls := n; selects := selects s |}.
Definition with_selects (n : nat) (s : State) : State :=
  {| c := c s; now := now s; env := env s; trace := trace s;
     calls := calls s; selects := n |}.

Definition set_dockerClient (v : option Client) (k : Container) : Container :=
  {| dockerClient := v; CID := CID k; Status := Status k; Command := Command k;
     Output := Output k; Image_ := Image_ k; StartedAt := StartedAt k;
     FinishedAt := FinishedAt k |}.
Definition set_CID (v : string) (k : Container) : Container :=
  {| dockerClient := dockerClient k; CID := v; Status := Status k;
     Command := Command k; Output := Output k; Image_ := Image_ k;
     StartedAt := StartedAt k; FinishedAt := FinishedAt k |}.
Definition set_Status (v : string) (k : Container) : Container :=
  {| dockerClient := dockerClient k; CID := CID k; Status := v;
     Command := Command k; Output := Output k; Image_ := Image_ k;
     StartedAt := StartedAt k; FinishedAt := FinishedAt k |}.
Definition set_Output (v : string) (k : Container) : Container :=
  {| dockerClient := dockerClient k; CID := CID k; Status := Status k;
     Command := Command k; Output := v; Image_ := Image_ k;
     StartedAt := StartedAt k; FinishedAt := FinishedAt k |}.
Definition set_StartedAt (v : N) (k : Container) : Container :=
  {| dockerClient := dockerClient k; CID := CID k; Status := Status k;
     Command := Command k; Output := Output k; Image_ := Image_ k;
     StartedAt := v; FinishedAt := FinishedAt k |}.
Definition set_FinishedAt (v : N) (k : Container) : Container :=
  {| dockerClient := dockerClient k; CID := CID k; Status := Status k;
     Command := Command k; Output := Output k; Image_ := Image_ k;
     StartedAt := StartedAt k; FinishedAt := v |}.

(** [c.field = v] *)
Definition assign (f : Container -> Container) : M unit := modify (with_c f).

(** [time.Now()] *)
Definition time_Now : M N := gets now.

(** A call is recorded with the instant it is made at. *)
Definition emit (e : Event) : M unit :=
  modify (fun s => with_trace (trace s ++ [(now s, e)]) s).

(** [os.Getenv]: the empty string for a variable that is not set. *)
Definition os_Getenv (key : string) : M string :=
  gets (fun s => default "" (env s !! key)).

(** [log.Info] and [log.Error] of huskyCI's [api/log]. *)
Definition log_Info (action info : string) (msgCode : Z) (message : list Arg)
  : M unit := emit (Log INFO action info msgCode message).
Definition log_Error (action info : string) (msgCode : Z) (message : list Arg)
  : M unit := emit (Log ERROR action info msgCode message).

(** HandleCmd will extract %GIT_REPO% and %GIT_BRANCH% from cmd and replace
    it with the proper repository URL. *)
Definition HandleCmd (repositoryURL repositoryBranch cmd : string) : string :=
  if negb (String.eqb repositoryURL "") && negb (String.eqb repositoryBranch "")
     && negb (String.eqb cmd "")
  then
    let replace1 := strings.Replace cmd "%GIT_REPO%" repositoryURL (-1) in
    let replace2 := strings.Replace replace1 "%GIT_BRANCH%" repositoryBranch (-1) in
    replace2
  else "".

(** HandlePrivateSSHKey will extract %GIT_PRIVATE_SSH_KEY% from cmd and
    replace it with the proper private SSH key. *)
Definition HandlePrivateSSHKey (rawString : string) : M string :=
  privKey <- os_Getenv "HUSKYCI_API_GIT_PRIVATE_SSH_KEY" ;;
  let cmdReplaced := strings.Replace rawString "GIT_PRIVATE_SSH_KEY" privKey (-1) in
  ret cmdReplaced.

Section Methods.

Variable D : Daemon.

(** A round trip to the daemon through [c.dockerClient]: the request is
    recorded, the daemon answers, the clock moves on. *)
Definition daemon_call {A} (e : Event) (answer : nat -> A) : M A :=
  fun s =>
    match dockerClient (c s) with
    | None => Panics s
    | Some _ =>
        Returns (answer (calls s))
          (with_calls (S (calls s))
             (with_now (now s + round_trip D (calls s))
                (with_trace (trace s ++ [(now s, e)]) s)))
    end.

(** [os.Setenv] *)
Definition os_Setenv (key value : string) : M (option Error) :=
  emit (Setenv key value) ;;
  match Setenv_err D key value with
  | Some err => ret (Some err)
  | None => modify (fun s => with_env (<[key := value]> (env s)) s) ;; ret None
  end.

(** [client.NewEnvClient] *)
Definition client_NewEnvClient : M (Error + Client) :=
  emit NewEnvClient ;;
  e <- gets env ;;
  match NewEnvClient_err D e with
  | Some err => ret (inl err)
  | None =>
      ret (inr {| host := default "" (e !! "DOCKER_HOST");
                  certPath := default "" (e !! "DOCKER_CERT_PATH");
                  tlsVerify := default "" (e !! "DOCKER_TLS_VERIFY") |})
  end.

(** setDockerClientEnvs sets env vars needed by docker/docker library to
    create a NewEnvClient. *)
Definition setDockerClientEnvs : M (option Error) :=
  dockerAPIAddress <- os_Getenv "HUSKYCI_DOCKERAPI_ADDR" ;;
  dockerAPIPort <- os_Getenv "HUSKYCI_DOCKERAPI_PORT" ;;
  let dockerAPIPort :=
    if String.eqb dockerAPIPort "" then "2376" else dockerAPIPort in
  let dockerHost := ("https://" ++ dockerAPIAddress ++ ":" ++ dockerAPIPort)%string in
  pathCertificate <- os_Getenv "HUSKYCI_DOCKERAPI_CERT_PATH" ;;
  tlsVerify <- os_Getenv "HUSKYCI_DOCKERAPI_TLS_VERIFY" ;;
  let tlsVerify := if String.eqb tlsVerify "" then "1" else tlsVerify in
  err <- os_Setenv "DOCKER_HOST" dockerHost ;;
  match err with
  | Some err =>
      log_Error "setDockerClientEnvs" "CONTAINER" 3001 [AErr (Some err)] ;;
      ret (Some err)
  | None =>
      err <- os_Setenv "DOCKER_CERT_PATH" pathCertificate ;;
      match err with
      | Some err =>
          log_Error "setDockerClientEnvs" "CONTAINER" 3019 [AErr (Some err)] ;;
          ret (Some err)
      | None =>
          err <- os_Setenv "DOCKER_TLS_VERIFY" tlsVerify ;;
          match err with
          | Some err =>
              log_Error "setDockerClientEnvs" "CONTAINER" 3020 [AErr (Some err)] ;;
              ret (Some err)
          | None => ret None
          end
      end
  end.

(** NewDockerClient creates a new docker API client and set it to the
    container struct. *)
Definition NewDockerClient : M (option Error) :=
  err <- setDockerClientEnvs ;;
  match err with
  | Some err => ret (Some err)
  | None =>
      r <- client_NewEnvClient ;;
      match r with
      | inl err => ret (Some err)
      | inr newClient =>
          assign (set_dockerClient (Some newClient)) ;;
          ret None
      end
  end.

(** [fmt.Sprintf("%s:%s", c.Image.Name, c.Image.Tag)] *)
Definition fullImageName (k : Container) : string :=
  (Name (Image_ k) ++ ":" ++ Tag (Image_ k))%string.

(** Create creates a new container, set its CID and return an error. *)
Definition Create (repositoryURL branch : string) : M (option Error) :=
  k <- gets c ;;
  (* replace GIT repository URL, branch and SSH private key from os env var *)
  let cmd := HandleCmd repositoryURL branch (Command k) in
  finalCMD <- HandlePrivateSSHKey cmd ;;
  let containerConfig :=
    {| docker.Image := fullImageName k; Tty := true;
       Cmd := ["/bin/sh"; "-c"; finalCMD] |} in
  resp <- daemon_call (ContainerCreate containerConfig)
                      (fun n => ContainerCreate_ans D n containerConfig) ;;
  match resp with
  | inl err => ret (Some err)
  | inr ID => assign (set_CID ID) ;; ret None
  end.

(** Start starts a container and returns its error. *)
Definition Start : M (option Error) :=
  k <- gets c ;;
  daemon_call (ContainerStart (CID k)) (fun n => ContainerStart_ans D n (CID k)).

(** Wait returns when container finishes executing cmd. *)
Definition Wait : M (option Error) :=
  k <- gets c ;;
  r <- daemon_call (ContainerWait (CID k)) (fun n => ContainerWait_ans D n (CID k)) ;;
  let '(statusCode, err) := r in
  (if negb (Z.eqb statusCode 0)
   then log_Error "Wait" "CONTAINER" 3028 [AInt statusCode; AErr err]
   else ret tt) ;;
  ret err.

(** Remove removes a container by it's CID. *)
Definition Remove : M (option Error) :=
  k <- gets c ;;
  daemon_call (ContainerRemove (CID k)) (fun n => ContainerRemove_ans D n (CID k)).

(** PullImage pulls an image, like docker pull. *)
Definition PullImage : M (option Error) :=
  k <- gets c ;;
  daemon_call (ImagePull (CanonicalURL (Image_ k)))
              (fun n => ImagePull_ans D n (CanonicalURL (Image_ k))).

(** ReadOutput returns the output of a container based on isSTDERR and
    isSTDOUT bool parameters. *)
Definition ReadOutput (isSTDOUT isSTDERR : bool) : M (option Error) :=
  k <- gets c ;;
  r <- daemon_call (ContainerLogs (CID k) isSTDOUT isSTDERR)
                   (fun n => ContainerLogs_ans D n (CID k) isSTDOUT isSTDERR) ;;
  match r with
  | inl err => ret (Some err)
  | inr (inl err) => ret (Some err)
  | inr (inr body) => assign (set_Output body) ;; ret None
  end.

(** ImageIsLoaded returns a bool if a a docker image is loaded in DockerAPI
    or not. *)
Definition ImageIsLoaded : M (bool * option Error) :=
  k <- gets c ;;
  r <- daemon_call (ImageList (fullImageName k))
                   (fun n => ImageList_ans D n (fullImageName k)) ;;
  match r with
  | inl err => ret (false, Some err)
  | inr resultImageList =>
      let isLoaded := negb (Nat.eqb (List.length resultImageList) 0) in
      ret (isLoaded, None)
  end.

(** [*time.Ticker]: the instant its next tick is sent at, and whether a
    tick waits in its channel.  The channel holds one tick; a tick sent
    while one waits is dropped. *)
Record Ticker := {
  period : N;
  next_tick : N;
  buffered : bool;
}.

(** [time.NewTicker(d)]: the first tick is sent [d] after the call. *)
Definition time_NewTicker (d : N) : M Ticker :=
  t <- time_Now ;;
  ret {| period := d; next_tick := t + d; buffered := false |}.

(** [time.After(d)]: the instant from which its channel can be received
    from; nothing else receives from it, so it stays ready. *)
Definition time_After (d : N) : M N :=
  t <- time_Now ;;
  ret (t + d)%N.

(** The ticker at instant [t]: the ticks due by [t] have been sent. *)
Definition ticks_until (t : N) (k : Ticker) : Ticker :=
  if (next_tick k <=? t)%N then
    {| period := period k;
       next_tick := next_tick k + period k * ((t - next_tick k) / period k + 1);
       buffered := true |}
  else k.

Definition receive (k : Ticker) : Ticker :=
  {| period := period k; next_tick := next_tick k; buffered := false |}.

Inductive Case := case_timeout | case_retryTick.

(** [select { case <-timeout: ... case <-retryTick.C: ... }]: when neither
    channel is ready the goroutine sleeps until the first of them is; when
    both are, Go picks one of them. *)
Definition select (timeout : N) (retryTick : Ticker) : M (Case * Ticker) :=
  t <- time_Now ;;
  let k0 := ticks_until t retryTick in
  let wake :=
    if (timeout <=? t)%N || buffered k0 then t
    else N.min timeout (next_tick k0) in
  modify (with_now wake) ;;
  let k1 := ticks_until wake k0 in
  n <- gets selects ;;
  modify (with_selects (S n)) ;;
  if (timeout <=? wake)%N && (negb (buffered k1) || select_timeout D n)
  then ret (case_timeout, k1)
  else ret (case_retryTick, receive k1).

(** The [for { select { ... } }] of PullImageWorker. *)
Fixpoint PullImageWorker_loop (fuel : nat) (timeout : N) (retryTick : Ticker)
  : M (option Error) :=
  match fuel with
  | O => fun _ => OutOfFuel
  | S fuel' =>
      r <- select timeout retryTick ;;
      let '(chosen, retryTick) := r in
      match chosen with
      | case_timeout =>
          let timeOutErr : Error := "timeout" in
          log_Error "pullImageWorker" "HUSKYDOCKER" 3013 [AErr (Some timeOutErr)] ;;
          ret (Some timeOutErr)
      | case_retryTick =>
          k <- gets c ;;
          log_Info "pullImageWorker" "HUSKYDOCKER" 31 [AStr (Name (Image_ k))] ;;
          r <- ImageIsLoaded ;;
          let '(isLoaded, err) := r in
          match err with
          | Some err =>
              log_Error "pullImageWorker" "HUSKYDOCKER" 3029 [AErr (Some err)] ;;
              ret (Some err)
          | None =>
              if isLoaded then
                log_Info "pullImageWorker" "HUSKYDOCKER" 35 [AStr (Name (Image_ k))] ;;
                ret None
              else
                err <- PullImage ;;
                match err with
                | Some err =>
                    log_Error "pullImageWorker" "HUSKYDOCKER" 3013 [AErr (Some err)] ;;
                    ret (Some err)
                | None => PullImageWorker_loop fuel' timeout retryTick
                end
          end
      end
  end.

(** PullImageWorker will try to pull the container image a few times before
    returning a error *)
Definition PullImageWorker (fuel : nat) : M (option Error) :=
  timeout <- time_After (15 * Minute) ;;
  retryTick <- time_NewTicker (15 * Second) ;;
  PullImageWorker_loop fuel timeout retryTick.

(** Run runs a container by creating and starting it. *)
Definition Run (fuel : nat) (repositoryURL branch : string) : M (option Error) :=
  (* step 1: create a new docker client *)
  err <- NewDockerClient ;;
  match err with
  | Some err =>
      log_Error "RUN" "CONTAINER" 3005 [AErr (Some err)] ;;
      ret (Some err)
  | None =>
  (* step 2: pull image if it is not there yet *)
  r <- ImageIsLoaded ;;
  let '(imageIsLoaded, err) := r in
  match err with
  | Some err => ret (Some err)
  | None =>
  err <- (if negb imageIsLoaded then PullImageWorker fuel else ret None) ;;
  match err with
  | Some err => ret (Some err)
  | None =>
  (* step 3: create the container *)
  err <- Create repositoryURL branch ;;
  k <- gets c ;;
  let name := AStr (Name (Image_ k)) in
  let tag := AStr (Tag (Image_ k)) in
  match err with
  | Some err =>
      log_Error "RUN" "CONTAINER" 3014 [name; tag; AErr (Some err)] ;;
      ret (Some err)
  | None =>
  assign (set_Status "created") ;;
  (* step 4: start the container *)
  t <- time_Now ;;
  assign (set_StartedAt t) ;;
  err <- Start ;;
  match err with
  | Some err =>
      assign (set_Status "finished") ;;
      log_Error "RUN" "CONTAINER" 3015 [name; tag; AErr (Some err)] ;;
      ret (Some err)
  | None =>
  log_Info "RUN" "CONTAINER" 32 [name; tag] ;;
  assign (set_Status "running") ;;
  (* step 5: wait the container finish *)
  err <- Wait ;;
  match err with
  | Some err =>
      assign (set_Status "finished") ;;
      log_Error "RUN" "CONTAINER" 3016 [AErr (Some err)] ;;
      ret (Some err)
  | None =>
  (* step 6: read container's STDOUT when it finishes *)
  t <- time_Now ;;
  assign (set_FinishedAt t) ;;
  err <- ReadOutput true false ;;
  match err with
  | Some err =>
      log_Error "RUN" "CONTAINER" 3007 [AErr (Some err)] ;;
      ret (Some err)
  | None =>
  log_Info "RUN" "CONTAINER" 34 [name; tag] ;;
  assign (set_Status "finished") ;;
  (* step 7: remove container from docker API *)
  err <- Remove ;;
  match err with
  | Some err => log_Error "RUN" "CONTAINER" 3027 [AErr (Some err)]
  | None => ret tt
  end ;;
  ret None
  end end end end end end end.

End Methods.

End container.

(** ** What "every occurrence replaced" means *)

Module replacement.

Import strings.

(** In [a ++ old ++ b] no occurrence of [old] starts inside [a]: the
    occurrence after [a] is the leftmost one. *)
Definition leftmost (old a b : string) : Prop :=
  forall a1 a2 : string,
    a = (a1 ++ a2)%string -> a2 <> EmptyString ->
    HasPrefix (a2 ++ old ++ b)%string old = false.

(** [replaced_every old new s r]: [r] is [s] with every occurrence of
    [old] replaced by [new], the occurrences taken from the left and not
    overlapping. *)
Inductive replaced_every (old new : string) : string -> string -> Prop :=
| replaced_none (s : string) :
    Contains s old = false -> replaced_every old new s s
| replaced_first (a b r : string) :
    leftmost old a b ->
    replaced_every old new b r ->
    replaced_every old new (a ++ old ++ b)%string (a ++ new ++ r)%string.

End replacement.

(** ** What a trace shows *)

Module observations.

Import docker.

(** The containers whose removal was asked for, in order. *)
Definition removals (tr : list (N * Event)) : list string :=
  flat_map (fun e => match snd e with ContainerRemove id => [id] | _ => [] end) tr.

(** The commands of the containers whose creation was asked for. *)
Definition created_commands (tr : list (N * Event)) : list (list string) :=
  flat_map (fun e => match snd e with ContainerCreate cfg => [Cmd cfg] | _ => [] end) tr.

(** The containers that were started. *)
Definition starts (tr : list (N * Event)) : list string :=
  flat_map (fun e => match snd e with ContainerStart id => [id] | _ => [] end) tr.

(** The images that were pulled. *)
Definition pulls (tr : list (N * Event)) : list string :=
  flat_map (fun e => match snd e with ImagePull ref => [ref] | _ => [] end) tr.

(** The instants of the presence checks. *)
Definition polls (tr : list (N * Event)) : list N :=
  flat_map (fun e => match snd e with ImageList _ => [fst e] | _ => [] end) tr.

(** The value a method returned, if it returned. *)
Definition returned {A} (o : container.Outcome A) : option A :=
  match o with
  | container.Returns a _ => Some a
  | _ => None
  end.

(** The state a method returned in. *)
Definition final {A} (o : container.Outcome A) : option container.State :=
  match o with
  | container.Returns _ s => Some s
  | _ => None
  end.

(** Nothing was removed between [s] and [s']. *)
Definition quiet (s s' : container.State) : Prop :=
  removals (container.trace s') = removals (container.trace s).

End observations.

(** ** Sample runs *)

Module samples.

Import analysis.

Definition vulnerability (severity : string) : RetirejsVulnerability :=
  {| Info := []; Below := "1.1"; Severity := severity;
     RetirejsIdentifiers :=
       {| IssueFound := "I1"; Summary := "S"; CVE := ["CVE-1"] |} |}.

Definition output_of (severities : list string) : RetirejsOutput :=
  {| RetirejsIssues :=
       [{| File := "a.js";
           RetirejsResults :=
             [{| Version := "1.0"; Component := "lib"; Detection := "x";
                 RetirejsVulnerabilities := map vulnerability severities |}] |}];
     Messages := ""; Errors := "" |}.

Definition no_issues : RetirejsOutput :=
  {| RetirejsIssues := []; Messages := ""; Errors := "" |}.

(** A parser that knows four documents, by name. *)
Definition Unmarshal_sample (data : string) : Error + RetirejsOutput :=
  if String.eqb data "one high" then inr (output_of ["high"])
  else if String.eqb data "all low" then inr (output_of ["low"; "low"])
  else if String.eqb data "other spellings"
       then inr (output_of ["High"; "MEDIUM"; "critical"])
  else if String.eqb data "no issues" then inr no_issues
  else inl "invalid character".

Definition UpdateOne_ok (query update : gmap string Bson) : option Error := None.

Definition SendLog_ok (extra : gmap string Bson) (level : string)
  (messages : list string) : option Error := None.

Import docker container.

(** A daemon that answers every call the same way: [images] is what a
    presence check finds, the other arguments are the answers to start,
    wait, the reading of the logs and removal. *)
Definition daemon_answering (images : list string) (start wait : option Error)
  (logs : Error + (Error + string)) (remove : option Error) : Daemon :=
  {| Setenv_err := fun _ _ => None;
     NewEnvClient_err := fun _ => None;
     ImageList_ans := fun _ _ => inr images;
     ImagePull_ans := fun _ _ => None;
     ContainerCreate_ans := fun _ _ => inr "4f1c";
     ContainerStart_ans := fun _ _ => start;
     ContainerWait_ans := fun _ _ => (0%Z, wait);
     ContainerLogs_ans := fun _ _ _ _ => logs;
     ContainerRemove_ans := fun _ _ => remove;
     round_trip := fun _ => 1000000%N;
     select_timeout := fun _ => true |}.

Definition daemon_ok : Daemon :=
  daemon_answering ["sha256:9a0b"] None None (inr (inr "[]")) None.

Definition daemon_start_fails : Daemon :=
  daemon_answering ["sha256:9a0b"] (Some "cannot start") None (inr (inr "[]")) None.

Definition daemon_wait_fails : Daemon :=
  daemon_answering ["sha256:9a0b"] None (Some "connection reset") (inr (inr "[]")) None.

Definition daemon_logs_fail : Daemon :=
  daemon_answering ["sha256:9a0b"] None None (inl "no such container") None.

Definition daemon_remove_fails : Daemon :=
  daemon_answering ["sha256:9a0b"] None None (inr (inr "[]")) (Some "conflict").

(** The image never shows up, the pulls succeed. *)
Definition daemon_image_absent : Daemon :=
  daemon_answering [] None None (inr (inr "[]")) None.

(** The image shows up after the first pull. *)
Definition daemon_image_arrives : Daemon :=
  {| Setenv_err := fun _ _ => None;
     NewEnvClient_err := fun _ => None;
     ImageList_ans :=
       fun n _ => if (n <? 3)%nat then inr [] else inr ["sha256:9a0b"];
     ImagePull_ans := fun _ _ => None;
     ContainerCreate_ans := fun _ _ => inr "4f1c";
     ContainerStart_ans := fun _ _ => None;
     ContainerWait_ans := fun _ _ => (0%Z, None);
     ContainerLogs_ans := fun _ _ _ _ => inr (inr "[]");
     ContainerRemove_ans := fun _ _ => None;
     round_trip := fun _ => 1000000%N;
     select_timeout := fun _ => true |}.

Definition retirejs : Container :=
  {| dockerClient := None; CID := ""; Status := "";
     Command := "scan.sh %GIT_REPO% %GIT_BRANCH%"; Output := "";
     Image_ := {| CanonicalURL := "docker.io/huskyci/retirejs";
                  Name := "huskyci/retirejs"; Tag := "latest" |};
     StartedAt := 0; FinishedAt := 0 |}.

Definition boot (k : Container) (e : gmap string string) : State :=
  {| c := k; now := 0; env := e; trace := []; calls := 0; selects := 0 |}.

Definition connected (k : Container) : Container :=
  set_dockerClient
    (Some {| host := "https://:2376"; certPath := ""; tlsVerify := "1" |}) k.

End samples.

(** ** More of what a trace shows *)

Module reports.

Import analysis.

(** The messages sent to the logger at level ERROR, in order. *)
Definition error_logs (trace : list Effect) : list (list string) :=
  flat_map (fun e => match e with
                     | SendLog _ level messages =>
                         if String.eqb level "ERROR" then [messages] else []
                     | _ => []
                     end) trace.

(** What was printed on the standard output. *)
Definition printed (trace : list Effect) : list (list string) :=
  flat_map (fun e => match e with Println args => [args] | _ => [] end) trace.

End reports.

(** ** The lifecycle of a container, as a trace shows it *)

Module lifecycle.

Import docker container.

(** The calls about a container, in order, without their instants. *)
Definition container_calls (tr : list (N * Event)) : list Event :=
  flat_map (fun e => match snd e with
                     | ContainerCreate _ | ContainerStart _ | ContainerWait _
                     | ContainerLogs _ _ _ | ContainerRemove _ => [snd e]
                     | _ => []
                     end) tr.

(** The message codes logged at level ERROR. *)
Definition error_codes (tr : list (N * Event)) : list Z :=
  flat_map (fun e => match snd e with
                     | Log ERROR _ _ code _ => [code]
                     | _ => []
                     end) tr.

(** The private key as [HandlePrivateSSHKey] reads it. *)
Definition secret (s : State) : string :=
  default "" (env s !! "HUSKYCI_API_GIT_PRIVATE_SSH_KEY").

(** The configuration [Create] asks a container for. *)
Definition request (repositoryURL branch : string) (s : State) : Config :=
  {| docker.Image := fullImageName (c s); Tty := true;
     Cmd := ["/bin/sh"; "-c";
             strings.Replace (HandleCmd repositoryURL branch (Command (c s)))
               "GIT_PRIVATE_SSH_KEY" (secret s) (-1)] |}.

(** The five calls of a complete run, for the container [id]. *)
Definition protocol (config : Config) (id : string) : list Event :=
  [ContainerCreate config; ContainerStart id; ContainerWait id;
   ContainerLogs id true false; ContainerRemove id].

(** The record [k] once a run has filled it in. *)
Definition filled (k : Container) (cl : Client) (id status output : string)
  (startedAt finishedAt : N) : Container :=
  {| dockerClient := Some cl; CID := id; Status := status;
     Command := Command k; Output := output; Image_ := Image_ k;
     StartedAt := startedAt; FinishedAt := finishedAt |}.

(** The environment as [setDockerClientEnvs] leaves it when every
    [os.Setenv] succeeds. *)
Definition docker_env (e : gmap string string) : gmap string string :=
  let get key := default "" (e !! key) in
  let port :=
    if String.eqb (get "HUSKYCI_DOCKERAPI_PORT") "" then "2376"
    else get "HUSKYCI_DOCKERAPI_PORT" in
  let verify :=
    if String.eqb (get "HUSKYCI_DOCKERAPI_TLS_VERIFY") "" then "1"
    else get "HUSKYCI_DOCKERAPI_TLS_VERIFY" in
  <["DOCKER_TLS_VERIFY" := verify]>
    (<["DOCKER_CERT_PATH" := get "HUSKYCI_DOCKERAPI_CERT_PATH"]>
       (<["DOCKER_HOST" :=
            ("https://" ++ get "HUSKYCI_DOCKERAPI_ADDR" ++ ":" ++ port)%string]> e)).

(** The containers a trace shows being started, read off its container
    calls. *)
Definition started (calls : list Event) : list string :=
  flat_map (fun e => match e with ContainerStart id => [id] | _ => [] end) calls.

(** Between [s] and [s'] the calls [calls] were made about containers,
    the private key stayed what it was and the clock did not go back. *)
Definition moved (s s' : State) (calls : list Event) : Prop :=
  container_calls (trace s') = container_calls (trace s) ++ calls
  /\ secret s' = secret s
  /\ (now s <= now s')%N.

End lifecycle.

(** ** More sample runs *)

Module scenarios.

Import analysis docker container samples.

(** The same two vulnerabilities as [output_of ["high"; "low"]], spread
    over two issues and three results. *)
Definition spread_output : RetirejsOutput :=
  {| RetirejsIssues :=
       [{| File := "a.js";
           RetirejsResults :=
             [{| Version := "1.0"; Component := "lib"; Detection := "x";
                 RetirejsVulnerabilities := [vulnerability "low"] |}] |};
        {| File := "b.js";
           RetirejsResults :=
             [{| Version := "2.0"; Component := "dep"; Detection := "y";
                 RetirejsVulnerabilities := [vulnerability "high"] |};
              {| Version := "3.0"; Component := "aux"; Detection := "z";
                 RetirejsVulnerabilities := [] |}] |}];
     Messages := ""; Errors := "" |}.

(** A database that is down. *)
Definition UpdateOne_down (query update : gmap string Bson) : option Error :=
  Some "no reachable servers".

(** A daemon described by what it answers to [os.Setenv], to the presence
    checks, to the pulls, to create and to wait. *)
Definition daemon_of (setenv : string -> string -> option Error)
  (images : nat -> Error + list string) (pull : option Error)
  (create : Error + string) (wait : Z * option Error) : Daemon :=
  {| Setenv_err := setenv;
     NewEnvClient_err := fun _ => None;
     ImageList_ans := fun n _ => images n;
     ImagePull_ans := fun _ _ => pull;
     ContainerCreate_ans := fun _ _ => create;
     ContainerStart_ans := fun _ _ => None;
     ContainerWait_ans := fun _ _ => wait;
     ContainerLogs_ans := fun _ _ _ _ => inr (inr "[]");
     ContainerRemove_ans := fun _ _ => None;
     round_trip := fun _ => 1000000%N;
     select_timeout := fun _ => true |}.

Definition setenv_ok (key value : string) : option Error := None.

(** [os.Setenv] refuses the certificate path. *)
Definition setenv_refuses_cert (key value : string) : option Error :=
  if String.eqb key "DOCKER_CERT_PATH" then Some "invalid argument" else None.

Definition daemon_setenv_fails : Daemon :=
  daemon_of setenv_refuses_cert (fun _ => inr ["sha256:9a0b"]) None
            (inr "4f1c") (0%Z, None).

(** The scanner exits with status 13. *)
Definition daemon_exit_status : Daemon :=
  daemon_of setenv_ok (fun _ => inr ["sha256:9a0b"]) None (inr "4f1c") (13%Z, None).

Definition daemon_check_fails : Daemon :=
  daemon_of setenv_ok (fun _ => inl "daemon unreachable") None
            (inr "4f1c") (0%Z, None).

Definition daemon_pull_fails : Daemon :=
  daemon_of setenv_ok (fun _ => inr []) (Some "unauthorized")
            (inr "4f1c") (0%Z, None).

Definition daemon_create_fails : Daemon :=
  daemon_of setenv_ok (fun _ => inr ["sha256:9a0b"]) None
            (inl "no such image") (0%Z, None).

(** The environment of a deployment that names its daemon. *)
Definition deployment : gmap string string :=
  {[ "HUSKYCI_DOCKERAPI_ADDR" := "docker.internal";
     "HUSKYCI_DOCKERAPI_CERT_PATH" := "/certs" ]}.

(** The state a method ended in, or [s] when it did not return. *)
Definition after {A} (o : Outcome A) (s : State) : State :=
  match o with
  | Returns _ s' => s'
  | _ => s
  end.

End scenarios.

(** * Properties *)

Module strings_facts.

Import strings replacement.
Local Open Scope string_scope.

Lemma append_nil (t : string) : "" ++ t = t.
Proof. reflexivity. Qed.

Lemma append_cons (c : ascii) (s t : string) : String c s ++ t = String c (s ++ t).
Proof. reflexivity. Qed.

Ltac push_append := rewrite ?append_cons, ?append_nil in *.

Lemma append_empty_r (s : string) : s ++ "" = s.
Proof. induction s as [|c s IH]; push_append; [reflexivity | now rewrite IH]. Qed.

Lemma append_assoc (a b c : string) : (a ++ b) ++ c = a ++ (b ++ c).
Proof. induction a as [|x a IH]; push_append; [reflexivity | now rewrite IH]. Qed.

Lemma length_append (a b : string) :
  String.length (a ++ b) = String.length a + String.length b.
Proof.
  induction a as [|x a IH]; push_append; [reflexivity | simpl; now rewrite IH].
Qed.

Lemma HasPrefix_spec (s p : string) :
  HasPrefix s p = true <-> exists t, s = p ++ t.
Proof.
  revert s. induction p as [|x p IH]; intros s; simpl.
  - split; [intros _; now exists s | reflexivity].
  - destruct s as [|c s].
    + split; [discriminate | intros [t Ht]; discriminate].
    + rewrite andb_true_iff, Ascii.eqb_eq, IH. split.
      * intros [-> [t ->]]. now exists t.
      * intros [t Ht]. push_append. injection Ht as -> ->.
        split; [reflexivity | now exists t].
Qed.

Lemma HasPrefix_append (p t : string) : HasPrefix (p ++ t) p = true.
Proof. apply HasPrefix_spec. now exists t. Qed.

Lemma Contains_spec (s sub : string) :
  Contains s sub = true <-> exists a b, s = a ++ sub ++ b.
Proof.
  induction s as [|c s IH].
  - simpl. rewrite orb_false_r, HasPrefix_spec. split.
    + intros [t Ht]. now exists "", t.
    + intros [a [b H]]. destruct a; [now exists b | discriminate].
  - cbn [Contains]. rewrite orb_true_iff, HasPrefix_spec, IH. split.
    + intros [[t Ht] | [a [b H]]].
      * now exists "", t.
      * exists (String c a), b. push_append. now rewrite H.
    + intros [a [b H]]. destruct a as [|x a]; push_append.
      * left. now exists b.
      * right. injection H as _ H. now exists a, b.
Qed.

(** The raw text is part of whatever it was appended to. *)
Lemma Contains_append_r (a s : string) : Contains (a ++ s) s = true.
Proof. apply Contains_spec. exists a, "". now rewrite append_empty_r. Qed.

Lemma replace_from_skip (old new t b : string) :
  replace_from old new None (String.length t) (t ++ b)
  = replace_from old new None 0 b.
Proof.
  induction t as [|x t IH]; push_append.
  - destruct b; reflexivity.
  - exact IH.
Qed.

Lemma replace_from_absent (old new s : string) :
  Contains s old = false -> replace_from old new None 0 s = s.
Proof.
  induction s as [|c s IH]; intros H; [reflexivity|].
  cbn [Contains] in H. apply orb_false_iff in H as [Hp Hc].
  cbn [replace_from]. rewrite Hp. simpl. now rewrite IH.
Qed.

Lemma replace_from_leftmost (old new a b : string) :
  old <> "" -> leftmost old a b ->
  replace_from old new None 0 (a ++ old ++ b)
  = a ++ new ++ replace_from old new None 0 b.
Proof.
  intros Hold. induction a as [|x a IH]; intros Hl.
  - destruct old as [|o old']; [congruence|].
    rewrite append_nil.
    pose proof (HasPrefix_append (String o old') b) as Hp.
    rewrite append_cons in *.
    cbn [replace_from exhausted negb andb]. rewrite Hp.
    cbn [spend String.length Nat.pred].
    now rewrite replace_from_skip.
  - assert (Hp : HasPrefix (String x a ++ old ++ b) old = false).
    { apply (Hl "" (String x a)); [reflexivity | discriminate]. }
    rewrite !append_cons in *.
    cbn [replace_from exhausted negb andb]. rewrite Hp.
    rewrite IH; [reflexivity|].
    intros a1 a2 -> Ha2. apply (Hl (String x a1) a2); [reflexivity | assumption].
Qed.

(** An occurrence has a leftmost occurrence. *)
Lemma Contains_leftmost (s old : string) :
  Contains s old = true ->
  exists a b, s = a ++ old ++ b /\ leftmost old a b.
Proof.
  induction s as [|c s IH]; intros H.
  - simpl in H. rewrite orb_false_r in H. apply HasPrefix_spec in H as [t Ht].
    exists "", t. split; [assumption|].
    intros a1 a2 Ha Ha2. destruct a1, a2; push_append; congruence.
  - cbn [Contains] in H. destruct (HasPrefix (String c s) old) eqn:Hp.
    + apply HasPrefix_spec in Hp as [t Ht]. exists "", t. split; [assumption|].
      intros a1 a2 Ha Ha2. destruct a1, a2; push_append; congruence.
    + simpl in H. destruct (IH H) as [a [b [Hs Hl]]].
      exists (String c a), b. split; [push_append; now rewrite Hs|].
      intros a1 a2 Ha Ha2. destruct a1 as [|y a1]; push_append.
      * subst a2. push_append. rewrite <- Hs. exact Hp.
      * injection Ha as _ Ha. now apply (Hl a1 a2).
Qed.

Lemma Replace_all_unfold (s old new : string) :
  old <> "" -> Replace s old new (-1) = replace_from old new None 0 s.
Proof. intros H. unfold Replace. destruct old; [congruence | reflexivity]. Qed.

(** The model of [strings.Replace(s, old, new, -1)] replaces every
    occurrence. *)
Lemma Replace_replaced_every (old new s : string) :
  old <> "" -> replaced_every old new s (Replace s old new (-1)).
Proof.
  intros Hold. rewrite Replace_all_unfold by assumption.
  remember (String.length s) as n eqn:Hn. revert s Hn.
  induction n as [n IH] using lt_wf_ind; intros s Hn.
  destruct (Contains s old) eqn:Hc.
  - destruct (Contains_leftmost _ _ Hc) as [a [b [-> Hl]]].
    rewrite replace_from_leftmost by assumption.
    apply replaced_first; [assumption|].
    apply (IH (String.length b)); [|reflexivity].
    subst n. rewrite !length_append.
    destruct old; [congruence | simpl; lia].
  - rewrite replace_from_absent by assumption. now apply replaced_none.
Qed.

(** And "every occurrence replaced" has no other outcome. *)
Lemma replaced_every_Replace (old new s r : string) :
  old <> "" -> replaced_every old new s r -> r = Replace s old new (-1).
Proof.
  intros Hold H. rewrite Replace_all_unfold by assumption.
  induction H as [s Hc | a b r Hl _ IH].
  - now rewrite replace_from_absent.
  - rewrite replace_from_leftmost by assumption. now rewrite IH.
Qed.

Lemma Replace_absent (s old new : string) :
  Contains s old = false -> Replace s old new (-1) = s.
Proof.
  intros H. destruct old as [|o old'].
  - destruct s; discriminate.
  - rewrite Replace_all_unfold by discriminate. now apply replace_from_absent.
Qed.

Example Replace_all_1 : Replace "a-b-c" "-" "+" (-1) = "a+b+c".
Proof. reflexivity. Qed.

Example Replace_all_2 : Replace "aaaa" "aa" "b" (-1) = "bb".
Proof. reflexivity. Qed.

Example Replace_limit_1 : Replace "a-b-c" "-" "+" 1 = "a+b-c".
Proof. reflexivity. Qed.

Example Replace_empty_old : Replace "ab" "" "." (-1) = ".a.b.".
Proof. reflexivity. Qed.

Example Contains_marker :
  Contains "fatal: ERROR_CLONING" "ERROR_CLONING" = true.
Proof. reflexivity. Qed.

End strings_facts.

(** ** The evaluator *)

Module analysis_facts.

Import analysis.

Lemma fails_spec (v : RetirejsVulnerability) :
  fails v = true <-> Severity v = "medium" \/ Severity v = "high".
Proof.
  unfold fails. rewrite orb_true_iff, !String.eqb_eq. tauto.
Qed.

Lemma scan_vulnerabilities_spec (vs : list RetirejsVulnerability) (cResult : string) :
  scan_vulnerabilities vs cResult
  = if existsb fails vs then "failed" else cResult.
Proof.
  induction vs as [|v vs IH]; [reflexivity|].
  cbn [scan_vulnerabilities existsb]. fold (fails v).
  destruct (fails v); [reflexivity | exact IH].
Qed.

Lemma scan_results_spec (rs : list RetirejsResult) (cResult : string) :
  scan_results rs cResult
  = if existsb fails (flat_map RetirejsVulnerabilities rs)
    then "failed" else cResult.
Proof.
  unfold scan_results. revert cResult.
  induction rs as [|r rs IH]; intros cResult; [reflexivity|].
  cbn [fold_left flat_map]. rewrite IH, scan_vulnerabilities_spec, existsb_app.
  destruct (existsb fails (RetirejsVulnerabilities r)); simpl;
    destruct (existsb fails (flat_map RetirejsVulnerabilities rs)); reflexivity.
Qed.

Lemma scan_issues_spec (out : RetirejsOutput) (cResult : string) :
  scan_issues (RetirejsIssues out) cResult
  = if existsb fails (vulnerabilities_of out) then "failed" else cResult.
Proof.
  unfold scan_issues, vulnerabilities_of. revert cResult.
  induction (RetirejsIssues out) as [|i rest IH]; intros cResult; [reflexivity|].
  cbn [fold_left flat_map]. rewrite IH, scan_results_spec, existsb_app.
  destruct (existsb fails (flat_map RetirejsVulnerabilities (RetirejsResults i)));
    simpl;
    match goal with |- context [existsb fails ?l] => destruct (existsb fails l) end;
    reflexivity.
Qed.

Section Evaluator.

Variable json_Unmarshal : string -> Error + RetirejsOutput.
Variable UpdateOneDBAnalysisContainer :
  gmap string Bson -> gmap string Bson -> option Error.
Variable Logger_SendLog :
  gmap string Bson -> string -> list string -> option Error.

Local Abbreviation log_error := (log_error Logger_SendLog).
Local Abbreviation update_and_report :=
  (update_and_report UpdateOneDBAnalysisContainer Logger_SendLog).
Local Abbreviation RetirejsStartAnalysis :=
  (RetirejsStartAnalysis json_Unmarshal UpdateOneDBAnalysisContainer Logger_SendLog).

Lemma updates_log_error (messages : list string) :
  updates (log_error messages) = [].
Proof. unfold analysis.log_error. now destruct Logger_SendLog. Qed.

Lemma parse_attempts_log_error (messages : list string) :
  parse_attempts (log_error messages) = [].
Proof. unfold analysis.log_error. now destruct Logger_SendLog. Qed.

Lemma updates_update_and_report (q u : gmap string Bson) :
  updates (update_and_report q u) = [(q, u)].
Proof.
  unfold analysis.update_and_report. cbn [updates flat_map app].
  destruct UpdateOneDBAnalysisContainer; [|reflexivity].
  fold (updates (log_error
    ["Error updating AnalysisCollection (inside retirejs.go):"; e])).
  now rewrite updates_log_error.
Qed.

Lemma parse_attempts_update_and_report (q u : gmap string Bson) :
  parse_attempts (update_and_report q u) = [].
Proof.
  unfold analysis.update_and_report. cbn [parse_attempts flat_map app].
  destruct UpdateOneDBAnalysisContainer; [|reflexivity].
  apply parse_attempts_log_error.
Qed.

(** The run of the evaluator on an output that parses and has issues. *)
Lemma RetirejsStartAnalysis_issues (CID cOutput : string) (out : RetirejsOutput) :
  strings.Contains cOutput "ERROR_CLONING" = false ->
  json_Unmarshal cOutput = inr out ->
  RetirejsIssues out <> [] ->
  updates (RetirejsStartAnalysis CID cOutput)
  = [({[ "containers.CID" := BString CID ]},
      {[ "$set" := BDoc {[ "containers.$.cResult" :=
           BString (if existsb fails (vulnerabilities_of out)
                    then "failed" else "passed") ]} ]})].
Proof.
  intros Hmark Hparse Hissues. unfold analysis.RetirejsStartAnalysis.
  rewrite Hmark, Hparse.
  destruct (RetirejsIssues out) as [|i rest] eqn:Hi; [congruence|].
  cbn [List.length Nat.eqb updates flat_map app].
  rewrite <- Hi, scan_issues_spec.
  apply updates_update_and_report.
Qed.

(** C1. When the output gets to the parse step (it holds no
    ERROR_CLONING) and parses into at least one issue, the evaluator
    writes exactly one verdict, and that verdict is "failed" if and only
    if some vulnerability of some issue has severity "medium" or "high";
    it is "passed" otherwise, in particular when every vulnerability is
    "low" and when there is none. *)
Theorem verdict_failed_iff (CID cOutput : string) (out : RetirejsOutput) :
  strings.Contains cOutput "ERROR_CLONING" = false ->
  json_Unmarshal cOutput = inr out ->
  RetirejsIssues out <> [] ->
  exists verdict : string,
    updates (RetirejsStartAnalysis CID cOutput)
    = [({[ "containers.CID" := BString CID ]},
        {[ "$set" := BDoc {[ "containers.$.cResult" := BString verdict ]} ]})]
    /\ (verdict = "failed" \/ verdict = "passed")
    /\ (verdict = "failed" <->
        exists v, In v (vulnerabilities_of out)
                  /\ (Severity v = "medium" \/ Severity v = "high"))
    /\ ((forall v, In v (vulnerabilities_of out) -> Severity v = "low") ->
        verdict = "passed").
Proof.
  intros Hmark Hparse Hissues.
  exists (if existsb fails (vulnerabilities_of out) then "failed" else "passed").
  split; [now apply RetirejsStartAnalysis_issues|].
  destruct (existsb fails (vulnerabilities_of out)) eqn:He.
  - apply existsb_exists in He as [v [Hin Hv]]. apply fails_spec in Hv.
    split; [now left|]. split.
    + split; [intros _; now exists v | reflexivity].
    + intros Hlow. specialize (Hlow v Hin). destruct Hv; congruence.
  - split; [now right|]. split; [|reflexivity]. split; [discriminate|].
    intros [v [Hin Hv]]. apply fails_spec in Hv.
    assert (existsb fails (vulnerabilities_of out) = true) as Ht
      by (apply existsb_exists; now exists v).
    congruence.
Qed.

(** C3. When the raw output contains the marker ERROR_CLONING, the
    evaluator writes the status "failed" together with an error message
    that contains the raw output, writes nothing else, and makes no attempt
    to parse. *)
Theorem clone_failure_short_circuit (CID cOutput : string) :
  strings.Contains cOutput "ERROR_CLONING" = true ->
  updates (RetirejsStartAnalysis CID cOutput)
  = [({[ "containers.CID" := BString CID ]},
      {[ "$set" := BDoc
           {[ "containers.$.cOutput" := BString ("Container error: " ++ cOutput)%string;
              "containers.$.cResult" := BString "failed" ]} ]})]
  /\ strings.Contains ("Container error: " ++ cOutput)%string cOutput = true
  /\ parse_attempts (RetirejsStartAnalysis CID cOutput) = [].
Proof.
  intros Hmark. unfold analysis.RetirejsStartAnalysis. rewrite Hmark.
  split; [apply updates_update_and_report|].
  split; [apply strings_facts.Contains_append_r|].
  apply parse_attempts_update_and_report.
Qed.

(** C4. When the raw output gets to the parse step (it holds no
    ERROR_CLONING) and parses into an output without issues, the
    evaluator writes exactly the output text "No issues found." and sets
    no verdict field. *)
Theorem no_issues_found (CID cOutput : string) (out : RetirejsOutput) :
  strings.Contains cOutput "ERROR_CLONING" = false ->
  json_Unmarshal cOutput = inr out ->
  RetirejsIssues out = [] ->
  updates (RetirejsStartAnalysis CID cOutput)
  = [({[ "containers.CID" := BString CID ]},
      {[ "$set" := BDoc {[ "containers.$.cOutput" := BString "No issues found." ]} ]})]
  /\ Forall (fun qu => field_set (snd qu) "containers.$.cOutput"
                       = Some (BString "No issues found.")
                       /\ field_set (snd qu) "containers.$.cResult" = None)
            (updates (RetirejsStartAnalysis CID cOutput)).
Proof.
  intros Hmark Hparse Hissues.
  assert (Hu : updates (RetirejsStartAnalysis CID cOutput)
    = [({[ "containers.CID" := BString CID ]},
        {[ "$set" := BDoc {[ "containers.$.cOutput" := BString "No issues found." ]} ]})]).
  { unfold analysis.RetirejsStartAnalysis. rewrite Hmark, Hparse, Hissues.
    cbn [List.length Nat.eqb updates flat_map app].
    apply updates_update_and_report. }
  split; [exact Hu|]. rewrite Hu.
  constructor; [|constructor]. split; vm_compute; reflexivity.
Qed.

(** C10. The comparison is an exact match: for an output that is parsed
    and has issues, when no vulnerability has severity exactly "high" or
    exactly "medium", whatever else the severities are ("High", "MEDIUM",
    "critical", ...), the verdict written is "passed". *)
Theorem severity_match_is_exact (CID cOutput : string) (out : RetirejsOutput) :
  strings.Contains cOutput "ERROR_CLONING" = false ->
  json_Unmarshal cOutput = inr out ->
  RetirejsIssues out <> [] ->
  (forall v, In v (vulnerabilities_of out) ->
             Severity v <> "high" /\ Severity v <> "medium") ->
  updates (RetirejsStartAnalysis CID cOutput)
  = [({[ "containers.CID" := BString CID ]},
      {[ "$set" := BDoc {[ "containers.$.cResult" := BString "passed" ]} ]})].
Proof.
  intros Hmark Hparse Hissues Hother.
  rewrite (RetirejsStartAnalysis_issues CID cOutput out) by assumption.
  destruct (existsb fails (vulnerabilities_of out)) eqn:He; [|reflexivity].
  apply existsb_exists in He as [v [Hin Hv]]. apply fails_spec in Hv.
  destruct (Hother v Hin). tauto.
Qed.

End Evaluator.

Import samples.

Lemma verdict_failed_iff_witness :
  exists verdict : string,
    updates (RetirejsStartAnalysis Unmarshal_sample UpdateOne_ok SendLog_ok
               "c1" "one high")
    = [({[ "containers.CID" := BString "c1" ]},
        {[ "$set" := BDoc {[ "containers.$.cResult" := BString verdict ]} ]})]
    /\ (verdict = "failed" \/ verdict = "passed")
    /\ (verdict = "failed" <->
        exists v, In v (vulnerabilities_of (output_of ["high"]))
                  /\ (Severity v = "medium" \/ Severity v = "high"))
    /\ ((forall v, In v (vulnerabilities_of (output_of ["high"])) ->
                   Severity v = "low") ->
        verdict = "passed").
Proof.
  apply (verdict_failed_iff Unmarshal_sample UpdateOne_ok SendLog_ok
           "c1" "one high" (output_of ["high"]));
    [reflexivity | reflexivity | discriminate].
Defined.

Lemma clone_failure_short_circuit_witness :
  updates (RetirejsStartAnalysis Unmarshal_sample UpdateOne_ok SendLog_ok
             "c1" "ERROR_CLONING: timeout")
  = [({[ "containers.CID" := BString "c1" ]},
      {[ "$set" := BDoc
           {[ "containers.$.cOutput" :=
                BString "Container error: ERROR_CLONING: timeout";
              "containers.$.cResult" := BString "failed" ]} ]})]
  /\ strings.Contains "Container error: ERROR_CLONING: timeout"
                      "ERROR_CLONING: timeout" = true
  /\ parse_attempts (RetirejsStartAnalysis Unmarshal_sample UpdateOne_ok SendLog_ok
                       "c1" "ERROR_CLONING: timeout") = [].
Proof.
  apply (clone_failure_short_circuit Unmarshal_sample UpdateOne_ok SendLog_ok
           "c1" "ERROR_CLONING: timeout").
  reflexivity.
Defined.

Lemma no_issues_found_witness :
  updates (RetirejsStartAnalysis Unmarshal_sample UpdateOne_ok SendLog_ok
             "c1" "no issues")
  = [({[ "containers.CID" := BString "c1" ]},
      {[ "$set" := BDoc {[ "containers.$.cOutput" := BString "No issues found." ]} ]})]
  /\ Forall (fun qu => field_set (snd qu) "containers.$.cOutput"
                       = Some (BString "No issues found.")
                       /\ field_set (snd qu) "containers.$.cResult" = None)
            (updates (RetirejsStartAnalysis Unmarshal_sample UpdateOne_ok SendLog_ok
                        "c1" "no issues")).
Proof.
  apply (no_issues_found Unmarshal_sample UpdateOne_ok SendLog_ok
           "c1" "no issues" no_issues);
    reflexivity.
Defined.

Lemma severity_match_is_exact_witness :
  updates (RetirejsStartAnalysis Unmarshal_sample UpdateOne_ok SendLog_ok
             "c1" "other spellings")
  = [({[ "containers.CID" := BString "c1" ]},
      {[ "$set" := BDoc {[ "containers.$.cResult" := BString "passed" ]} ]})].
Proof.
  apply (severity_match_is_exact Unmarshal_sample UpdateOne_ok SendLog_ok
           "c1" "other spellings" (output_of ["High"; "MEDIUM"; "critical"]));
    [reflexivity | reflexivity | discriminate |].
  intros v Hin. simpl in Hin.
  destruct Hin as [<- | [<- | [<- | []]]]; split; discriminate.
Defined.

End analysis_facts.

(** ** The controller *)

Module container_facts.

Import docker container observations replacement.
Local Open Scope go_scope.

(** C5. HandleCmd returns the empty string when the repository URL, the
    branch or the template is empty.  Otherwise it returns the template
    with every occurrence of %GIT_REPO% replaced by the repository URL
    and, in the result of that, every occurrence of %GIT_BRANCH% replaced
    by the branch; a template without the two tokens is returned as it
    is; and "scan.sh %GIT_REPO% %GIT_BRANCH%" with "git@x/y" and "main"
    resolves to "scan.sh git@x/y main". *)
Theorem HandleCmd_resolves (repositoryURL branch cmd : string) :
  (repositoryURL = "" \/ branch = "" \/ cmd = "" ->
   HandleCmd repositoryURL branch cmd = "")
  /\ (repositoryURL <> "" -> branch <> "" -> cmd <> "" ->
      exists replace1 : string,
        replaced_every "%GIT_REPO%" repositoryURL cmd replace1
        /\ replaced_every "%GIT_BRANCH%" branch replace1
             (HandleCmd repositoryURL branch cmd))
  /\ (repositoryURL <> "" -> branch <> "" ->
      strings.Contains cmd "%GIT_REPO%" = false ->
      strings.Contains cmd "%GIT_BRANCH%" = false ->
      HandleCmd repositoryURL branch cmd = cmd)
  /\ HandleCmd "git@x/y" "main" "scan.sh %GIT_REPO% %GIT_BRANCH%"
     = "scan.sh git@x/y main".
Proof.
  split; [|split; [|split]].
  - unfold HandleCmd. intros [-> | [-> | ->]]; simpl;
      rewrite ?andb_false_r; reflexivity.
  - intros Hr Hb Hc. unfold HandleCmd.
    apply String.eqb_neq in Hr, Hb, Hc. rewrite Hr, Hb, Hc. cbn [negb andb].
    exists (strings.Replace cmd "%GIT_REPO%" repositoryURL (-1)).
    split; apply strings_facts.Replace_replaced_every; discriminate.
  - intros Hr Hb H1 H2. unfold HandleCmd.
    apply String.eqb_neq in Hr, Hb. rewrite Hr, Hb. cbn [negb andb].
    destruct (String.eqb_spec cmd "") as [->|_]; [reflexivity|]. cbn [negb].
    rewrite (strings_facts.Replace_absent cmd) by assumption.
    now apply strings_facts.Replace_absent.
  - reflexivity.
Qed.

Lemma HandleCmd_resolves_witness :
  HandleCmd "" "main" "scan.sh %GIT_REPO%" = ""
  /\ (exists replace1 : string,
        replaced_every "%GIT_REPO%" "git@x/y" "scan.sh %GIT_REPO%" replace1
        /\ replaced_every "%GIT_BRANCH%" "main" replace1
             (HandleCmd "git@x/y" "main" "scan.sh %GIT_REPO%"))
  /\ HandleCmd "git@x/y" "main" "retire --outputformat json" = "retire --outputformat json".
Proof.
  split; [|split].
  - apply (proj1 (HandleCmd_resolves "" "main" "scan.sh %GIT_REPO%")). now left.
  - apply (proj1 (proj2 (HandleCmd_resolves "git@x/y" "main" "scan.sh %GIT_REPO%")));
      discriminate.
  - apply (proj1 (proj2 (proj2
      (HandleCmd_resolves "git@x/y" "main" "retire --outputformat json"))));
      [discriminate | discriminate | reflexivity | reflexivity].
Defined.

(** *** Running the model *)

Lemma bind_Returns {A B} (m : M A) (k : A -> M B) (s s'' : State) (b : B) :
  bind m k s = Returns b s'' ->
  exists a s', m s = Returns a s' /\ k a s' = Returns b s''.
Proof.
  unfold bind. destruct (m s) as [a s'| |]; [|discriminate..].
  intros H. now exists a, s'.
Qed.

Lemma removals_snoc (tr : list (N * Event)) (t : N) (e : Event) :
  removals (tr ++ [(t, e)])
  = removals tr ++ match e with ContainerRemove id => [id] | _ => [] end.
Proof.
  unfold removals. rewrite flat_map_app. simpl. now rewrite app_nil_r.
Qed.

Ltac unfold_prims :=
  unfold log_Info, log_Error, emit, os_Getenv, assign, time_Now, modify,
         gets, bind, ret in *.

Ltac state_simpl :=
  cbn [c now env trace calls selects with_c with_now with_env with_trace
       with_calls with_selects] in *.

(** Case analysis on everything the run depended on. *)
Ltac crunch :=
  repeat (state_simpl; simplify_eq;
          match goal with
          | H : context [match ?x with _ => _ end] |- _ => destruct x eqn:?
          end);
  state_simpl; simplify_eq; state_simpl.

Ltac quiet_done :=
  unfold quiet in *; state_simpl; rewrite ?removals_snoc, ?app_nil_r in *;
  congruence.

Section Methods.

Variable D : Daemon.

Lemma NewDockerClient_quiet s a s' :
  NewDockerClient D s = Returns a s' -> quiet s s'.
Proof.
  unfold NewDockerClient, setDockerClientEnvs, client_NewEnvClient, os_Setenv.
  unfold_prims. intros H. crunch; quiet_done.
Qed.

Lemma ImageIsLoaded_frame s a s' :
  ImageIsLoaded D s = Returns a s' -> c s' = c s /\ quiet s s'.
Proof.
  unfold ImageIsLoaded, daemon_call. unfold_prims. intros H.
  crunch; (split; [reflexivity | quiet_done]).
Qed.

Lemma PullImage_frame s a s' :
  PullImage D s = Returns a s' -> c s' = c s /\ quiet s s'.
Proof.
  unfold PullImage, daemon_call. unfold_prims. intros H.
  crunch; (split; [reflexivity | quiet_done]).
Qed.

Lemma select_frame timeout k s a s' :
  select D timeout k s = Returns a s' -> c s' = c s /\ quiet s s'.
Proof.
  unfold select. unfold_prims. intros H.
  crunch; (split; [reflexivity | quiet_done]).
Qed.

Lemma PullImageWorker_loop_frame fuel timeout k s a s' :
  PullImageWorker_loop D fuel timeout k s = Returns a s' ->
  c s' = c s /\ quiet s s'.
Proof.
  revert k s a s'. induction fuel as [|fuel IH]; intros k s a s' H; [discriminate|].
  cbn [PullImageWorker_loop] in H.
  apply bind_Returns in H as ([chosen k'] & s1 & Hsel & H).
  apply select_frame in Hsel as [Hc1 Hq1].
  destruct chosen.
  - unfold_prims. crunch; (split; [assumption | quiet_done]).
  - apply bind_Returns in H as (k0 & s2 & H2 & H).
    apply bind_Returns in H as ([] & s3 & H3 & H).
    apply bind_Returns in H as ([isLoaded err] & s4 & H4 & H).
    apply ImageIsLoaded_frame in H4 as [Hc4 Hq4].
    assert (Hc3 : c s3 = c s /\ quiet s s3)
      by (unfold_prims; crunch; (split; [assumption | quiet_done])).
    destruct Hc3 as [Hc3 Hq3].
    destruct err as [err|].
    + unfold_prims. crunch; (split; [congruence | quiet_done]).
    + destruct isLoaded.
      * unfold_prims. crunch; (split; [congruence | quiet_done]).
      * apply bind_Returns in H as (err & s5 & H5 & H).
        apply PullImage_frame in H5 as [Hc5 Hq5].
        destruct err as [err|].
        -- unfold_prims. crunch; (split; [congruence | quiet_done]).
        -- apply IH in H as [Hc6 Hq6]. split; [congruence | quiet_done].
Qed.

Lemma PullImageWorker_frame fuel s a s' :
  PullImageWorker D fuel s = Returns a s' -> c s' = c s /\ quiet s s'.
Proof.
  unfold PullImageWorker, time_After, time_NewTicker. intros H.
  apply bind_Returns in H as (t & s1 & H1 & H).
  apply bind_Returns in H as (k & s2 & H2 & H).
  apply PullImageWorker_loop_frame in H as [Hc Hq].
  unfold_prims. crunch; (split; assumption).
Qed.

Lemma Create_quiet repositoryURL branch s a s' :
  Create D repositoryURL branch s = Returns a s' -> quiet s s'.
Proof.
  unfold Create, HandlePrivateSSHKey, daemon_call. unfold_prims. intros H.
  crunch; quiet_done.
Qed.

Lemma Start_quiet s a s' : Start D s = Returns a s' -> quiet s s'.
Proof.
  unfold Start, daemon_call. unfold_prims. intros H. crunch; quiet_done.
Qed.

Lemma Wait_quiet s a s' : Wait D s = Returns a s' -> quiet s s'.
Proof.
  unfold Wait, daemon_call. unfold_prims. intros H. crunch; quiet_done.
Qed.

Lemma ReadOutput_quiet isSTDOUT isSTDERR s a s' :
  ReadOutput D isSTDOUT isSTDERR s = Returns a s' -> quiet s s'.
Proof.
  unfold ReadOutput, daemon_call. unfold_prims. intros H. crunch; quiet_done.
Qed.

Lemma Remove_inv s a s' :
  Remove D s = Returns a s' ->
  a = ContainerRemove_ans D (calls s) (CID (c s))
  /\ c s' = c s /\ calls s' = S (calls s)
  /\ trace s' = trace s ++ [(now s, ContainerRemove (CID (c s)))].
Proof.
  unfold Remove, daemon_call. unfold_prims. intros H. crunch. tauto.
Qed.

(** A run of [Run] that returns an error made no removal attempt; a run
    that returns nil made exactly one, its last call to the daemon. *)
Lemma Run_removals fuel repositoryURL branch s r s' :
  Run D fuel repositoryURL branch s = Returns r s' ->
  match r with
  | Some _ => quiet s s'
  | None =>
      exists s7 s8 : State,
        quiet s s7
        /\ Remove D s7 = Returns (ContainerRemove_ans D (calls s7) (CID (c s7))) s8
        /\ c s' = c s7 /\ calls s' = S (calls s7)
        /\ trace s' =
           trace s8 ++
           match ContainerRemove_ans D (calls s7) (CID (c s7)) with
           | Some err =>
               [(now s8, Log ERROR "RUN" "CONTAINER" 3027 [AErr (Some err)])]
           | None => []
           end
  end.
Proof.
  unfold Run. intros H.
  apply bind_Returns in H as (e1 & s1 & H1 & H).
  apply NewDockerClient_quiet in H1.
  destruct e1 as [e1|]; [unfold_prims; crunch; quiet_done|].
  apply bind_Returns in H as ([imageIsLoaded e2] & s2 & H2 & H).
  apply ImageIsLoaded_frame in H2 as [_ H2].
  destruct e2 as [e2|]; [unfold_prims; crunch; quiet_done|].
  apply bind_Returns in H as (e3 & s3 & H3 & H).
  assert (Hq3 : quiet s2 s3).
  { clear H. destruct imageIsLoaded; cbn [negb] in H3.
    - unfold_prims. crunch. reflexivity.
    - now apply PullImageWorker_frame in H3 as [_ H3]. }
  clear H3.
  destruct e3 as [e3|]; [unfold_prims; crunch; quiet_done|].
  apply bind_Returns in H as (e4 & s4 & H4 & H).
  apply Create_quiet in H4.
  apply bind_Returns in H as (k & s4' & Hk & H).
  assert (s4' = s4) as -> by (clear H; unfold_prims; crunch; reflexivity). clear Hk.
  destruct e4 as [e4|]; [unfold_prims; crunch; quiet_done|].
  apply bind_Returns in H as ([] & s4a & Ha & H).
  apply bind_Returns in H as (t & s4b & Hb & H).
  apply bind_Returns in H as ([] & s4c & Hc & H).
  apply bind_Returns in H as (e5 & s5 & H5 & H).
  apply Start_quiet in H5.
  assert (Hq5 : quiet s4 s5) by (clear H; unfold_prims; crunch; quiet_done).
  clear Ha Hb Hc H5.
  destruct e5 as [e5|]; [unfold_prims; crunch; quiet_done|].
  apply bind_Returns in H as ([] & s5a & Ha & H).
  apply bind_Returns in H as ([] & s5b & Hb & H).
  apply bind_Returns in H as (e6 & s6 & H6 & H).
  apply Wait_quiet in H6.
  assert (Hq6 : quiet s5 s6) by (clear H; unfold_prims; crunch; quiet_done).
  clear Ha Hb H6.
  destruct e6 as [e6|]; [unfold_prims; crunch; quiet_done|].
  apply bind_Returns in H as (t' & s6a & Ha & H).
  apply bind_Returns in H as ([] & s6b & Hb & H).
  apply bind_Returns in H as (e7 & s7 & H7 & H).
  apply ReadOutput_quiet in H7.
  assert (Hq7 : quiet s6 s7) by (clear H; unfold_prims; crunch; quiet_done).
  clear Ha Hb H7.
  destruct e7 as [e7|]; [unfold_prims; crunch; quiet_done|].
  apply bind_Returns in H as ([] & s7a & Ha & H).
  apply bind_Returns in H as ([] & s7b & Hb & H).
  apply bind_Returns in H as (e8 & s8 & H8 & H).
  assert (Hq8 : quiet s7 s7b /\ c s7b = set_Status "finished" (c s7)
                /\ calls s7b = calls s7)
    by (clear H; unfold_prims; crunch; (split; [quiet_done | split; reflexivity])).
  destruct Hq8 as (Hq8 & Hc8 & Hn8). clear Ha Hb.
  pose proof (Remove_inv _ _ _ H8) as (-> & Hc9 & Hn9 & Ht9).
  apply bind_Returns in H as ([] & s9 & H9 & H).
  unfold ret in H. injection H as <- <-.
  exists s7b, s8. split; [quiet_done|]. split; [exact H8|].
  destruct (ContainerRemove_ans D (calls s7b) (CID (c s7b)));
    unfold_prims; crunch; rewrite ?app_nil_r; auto.
Qed.

End Methods.

(** *** The image-availability loop *)

Section Worker.

Local Open Scope N_scope.

Variable D : Daemon.

(** The image is absent at every presence check. *)
Hypothesis Habsent : forall n ref, ImageList_ans D n ref = inr [].
(** Every pull call succeeds. *)
Hypothesis Hpull : forall n ref, ImagePull_ans D n ref = None.
(** [select] does not pick the ticker for ever when the timeout is ready
    too. *)
Hypothesis Hfair :
  forall n : nat, exists m : nat, (n <= m)%nat /\ select_timeout D m = true.

(** Bringing a ticker up to instant [t] keeps its period, never moves its
    next tick back, and puts a tick in the channel exactly when one was
    due. *)
Lemma ticks_until_props (t : N) (k : Ticker) :
  period (ticks_until t k) = period k
  /\ (buffered k = true -> buffered (ticks_until t k) = true)
  /\ (next_tick k <= next_tick (ticks_until t k))
  /\ (buffered k = false -> buffered (ticks_until t k) = true ->
      next_tick k <= t /\ next_tick k + period k <= next_tick (ticks_until t k))
  /\ (t < next_tick k -> ticks_until t k = k)
  /\ (next_tick k <= t -> buffered (ticks_until t k) = true).
Proof.
  unfold ticks_until.
  destruct (N.leb_spec (next_tick k) t) as [Hle|Hgt];
    cbn [period next_tick buffered].
  - set (q := (t - next_tick k) / period k).
    assert (Hq : period k <= period k * (q + 1))
      by (rewrite N.mul_add_distr_l, N.mul_1_r; lia).
    repeat split; solve [reflexivity | lia].
  - repeat split; solve [reflexivity | lia | tauto | congruence].
Qed.

(** [select] always returns, touches nothing but the clock and its own
    counter, and never goes back in time.  It takes the timeout only once
    the deadline is reached, and a tick only when one is in the channel.
    When the deadline is reached and Go prefers the timeout, the timeout is
    taken.  Entered before the first tick is due, and this one due before
    the deadline, it sleeps until that tick. *)
Lemma select_returns (timeout : N) (k : Ticker) (s : State) :
  exists chosen k' s1,
    select D timeout k s = Returns (chosen, k') s1
    /\ c s1 = c s /\ trace s1 = trace s /\ calls s1 = calls s /\ env s1 = env s
    /\ selects s1 = S (selects s) /\ now s <= now s1
    /\ period k' = period k
    /\ match chosen with
       | case_timeout => timeout <= now s1
       | case_retryTick =>
           buffered k' = false
           /\ (buffered k = false ->
               next_tick k <= now s1 /\ next_tick k + period k <= next_tick k')
           /\ ~ (timeout <= now s /\ select_timeout D (selects s) = true)
       end
    /\ (buffered k = false -> now s < next_tick k -> next_tick k < timeout ->
        chosen = case_retryTick /\ now s1 = next_tick k).
Proof.
  unfold select. unfold_prims. state_simpl.
  destruct (ticks_until_props (now s) k) as (P0 & B0 & N0 & A0 & Z0 & L0).
  remember (ticks_until (now s) k) as k0 eqn:Hk0.
  remember (if (timeout <=? now s) || buffered k0 then now s
            else N.min timeout (next_tick k0)) as wake eqn:Hw.
  destruct (ticks_until_props wake k0) as (P1 & B1 & N1 & A1 & Z1 & L1).
  remember (ticks_until wake k0) as k1 eqn:Hk1.
  assert (Hwake : (timeout <= now s \/ buffered k0 = true) /\ wake = now s
                  \/ (now s < timeout /\ buffered k0 = false
                      /\ wake = N.min timeout (next_tick k0)
                      /\ now s < next_tick k0)).
  { subst wake. destruct (N.leb_spec timeout (now s)) as [H1|H1];
      destruct (buffered k0) eqn:Hb0; cbn [orb]; [left; split; auto..|right].
    repeat split; auto.
    destruct (N.leb_spec (next_tick k) (now s)) as [Hle|Hgt];
      [apply L0 in Hle; congruence | lia]. }
  clear Hw Hk0 Hk1.
  destruct ((timeout <=? wake)
            && (negb (buffered k1) || select_timeout D (selects s))) eqn:E;
    do 3 eexists; (split; [reflexivity|]); state_simpl;
    repeat (split; [first [reflexivity | assumption | congruence | lia]|]).
  - apply andb_true_iff in E as [E1 E2]. apply N.leb_le in E1. split; [assumption|].
    intros Hb Hlt1 Hlt2. exfalso.
    specialize (Z0 Hlt1). subst k0. 
    destruct Hwake as [[[H|H] _]|(_ & _ & -> & _)]; [lia | congruence | lia].
  - cbn [period next_tick buffered receive].
    assert (Hb1 : buffered k1 = true).
    { destruct (buffered k1) eqn:Hb1; [reflexivity|]. exfalso.
      cbn [negb orb] in E. rewrite andb_true_r in E. apply N.leb_gt in E.
      destruct Hwake as [[[H|H] ->]|(Hlt & Hb0 & -> & Hn)].
      - lia.
      - apply B1 in H. congruence.
      - assert (next_tick k0 <= N.min timeout (next_tick k0)) as Hle by lia.
        apply L1 in Hle. congruence. }
    split; [congruence|]. split; [split; [reflexivity|split]|].
    + intros Hb. destruct (buffered k0) eqn:Hb0.
      * destruct (A0 Hb eq_refl). lia.
      * destruct (A1 eq_refl Hb1). lia.
    + intros [H1 H2]. rewrite Hb1, H2 in E. cbn [negb orb] in E.
      rewrite andb_true_r in E. apply N.leb_gt in E.
      destruct Hwake as [[_ ->]|(Hlt & _)]; lia.
    + intros Hb Hlt1 Hlt2. split; [reflexivity|].
      specialize (Z0 Hlt1). subst k0.
      destruct Hwake as [[[H|H] _]|(_ & _ & -> & _)]; [lia | congruence | lia].
Qed.

(** One turn of the loop while the image stays absent and the pulls
    succeed: on the timeout the loop returns; on a tick it logs, checks,
    pulls, and goes round again. *)
Lemma loop_iteration timeout k s cl chosen k' s1 :
  dockerClient (c s) = Some cl ->
  select D timeout k s = Returns (chosen, k') s1 ->
  c s1 = c s ->
  match chosen with
  | case_timeout =>
      forall fuel,
        PullImageWorker_loop D (S fuel) timeout k s
        = Returns (Some "timeout")
            (with_trace
               (trace s1 ++
                [(now s1, Log ERROR "pullImageWorker" "HUSKYDOCKER" 3013
                            [AErr (Some "timeout")])]) s1)
  | case_retryTick =>
      exists s4 t2,
        (forall fuel,
           PullImageWorker_loop D (S fuel) timeout k s
           = PullImageWorker_loop D fuel timeout k' s4)
        /\ c s4 = c s1 /\ selects s4 = selects s1
        /\ now s1 <= t2 /\ t2 <= now s4
        /\ trace s4 =
           trace s1 ++
           [(now s1, Log INFO "pullImageWorker" "HUSKYDOCKER" 31
                       [AStr (Name (Image_ (c s1)))]);
            (now s1, ImageList (fullImageName (c s1)));
            (t2, ImagePull (CanonicalURL (Image_ (c s1))))]
  end.
Proof.
  intros Hcl Hsel Hc. destruct chosen.
  - intros fuel. cbn [PullImageWorker_loop]. unfold bind at 1.
    rewrite Hsel. reflexivity.
  - do 2 eexists. split.
    + intros fuel. cbn [PullImageWorker_loop]. unfold bind at 1. rewrite Hsel.
      unfold ImageIsLoaded, PullImage, daemon_call. unfold_prims. state_simpl.
      rewrite Hc, Hcl, Habsent. cbn [List.length Nat.eqb negb]. state_simpl.
      rewrite ?Hc, ?Hcl, Hpull. reflexivity.
    + state_simpl. rewrite <- !app_assoc. cbn [app]. rewrite ?Hc.
      repeat split; try reflexivity; try lia.
Qed.

(** However long it runs, the loop can only end in the timeout, once
    the deadline is reached, and all it does is appended to the trace, no
    earlier than the instant it was entered at. *)
Lemma loop_safety fuel timeout k s cl r s' :
  dockerClient (c s) = Some cl ->
  PullImageWorker_loop D fuel timeout k s = Returns r s' ->
  r = Some "timeout" /\ timeout <= now s' /\ c s' = c s
  /\ exists new, trace s' = trace s ++ new /\ Forall (fun e => now s <= fst e) new.
Proof.
  revert k s r s'. induction fuel as [|fuel IH]; intros k s r s' Hcl H; [discriminate|].
  destruct (select_returns timeout k s)
    as (chosen & k' & s1 & Hsel & Hc & Ht & _ & _ & _ & Hnow & _ & Hcase & _).
  pose proof (loop_iteration timeout k s cl chosen k' s1 Hcl Hsel Hc) as Hit.
  destruct chosen.
  - rewrite Hit in H. injection H as <- <-. state_simpl.
    repeat split; try assumption.
    eexists. split; [rewrite Ht; reflexivity|].
    constructor; [cbn [fst]; lia | constructor].
  - destruct Hit as (s4 & t2 & Hstep & Hc4 & _ & Ht2 & Ht4 & Htr).
    rewrite Hstep in H. apply IH in H as (-> & Hto & Hc' & new & Hnew & Hall);
      [|congruence].
    repeat split; try assumption; [congruence|].
    eexists. split; [rewrite Hnew, Htr, Ht, <- app_assoc; reflexivity|].
    apply Forall_app. split.
    + repeat constructor; cbn [fst]; lia.
    + eapply Forall_impl; [exact Hall|]. cbn beta. intros e He. lia.
Qed.

(** Past the deadline the loop returns as soon as Go prefers the
    timeout. *)
Lemma loop_returns_after_deadline d timeout k s cl :
  dockerClient (c s) = Some cl ->
  timeout <= now s ->
  select_timeout D (selects s + d) = true ->
  exists fuel s', PullImageWorker_loop D fuel timeout k s = Returns (Some "timeout") s'.
Proof.
  revert k s. induction d as [|d IH]; intros k s Hcl Hdead Hpick;
    destruct (select_returns timeout k s)
      as (chosen & k' & s1 & Hsel & Hc & _ & _ & _ & Hsel1 & Hnow & _ & Hcase & _);
    pose proof (loop_iteration timeout k s cl chosen k' s1 Hcl Hsel Hc) as Hit;
    destruct chosen.
  - exists 1%nat. eexists. apply Hit.
  - exfalso. destruct Hcase as (_ & _ & Hno). apply Hno.
    rewrite Nat.add_0_r in Hpick. now split.
  - exists 1%nat. eexists. apply Hit.
  - destruct Hit as (s4 & t2 & Hstep & Hc4 & Hs4 & Ht2 & Ht4 & _).
    destruct (IH k' s4) as (fuel & s' & H).
    + congruence.
    + lia.
    + rewrite Hs4, Hsel1. now replace (S (selects s) + d)%nat with (selects s + S d)%nat by lia.
    + exists (S fuel), s'. now rewrite Hstep.
Qed.

(** Every turn on a tick uses up a tick that was due, so that after
    [n + 1] turns the clock is past a deadline that lies within [n]
    periods of the next tick: the loop returns. *)
Lemma loop_returns n timeout k s cl :
  dockerClient (c s) = Some cl ->
  buffered k = false ->
  timeout <= next_tick k + N.of_nat n * period k ->
  exists fuel s', PullImageWorker_loop D fuel timeout k s = Returns (Some "timeout") s'.
Proof.
  revert k s. induction n as [|n IH]; intros k s Hcl Hb Hn;
    destruct (select_returns timeout k s)
      as (chosen & k' & s1 & Hsel & Hc & _ & _ & _ & Hsel1 & Hnow & Hp & Hcase & _);
    pose proof (loop_iteration timeout k s cl chosen k' s1 Hcl Hsel Hc) as Hit;
    destruct chosen;
    try (exists 1%nat; eexists; apply Hit);
    destruct Hit as (s4 & t2 & Hstep & Hc4 & Hs4 & Ht2 & Ht4 & _);
    destruct Hcase as (Hb' & Hadv & _); destruct (Hadv Hb) as [Hdue Hnext].
  - destruct (Hfair (selects s4)) as (m & Hm & Hpick).
    destruct (loop_returns_after_deadline (m - selects s4) timeout k' s4 cl)
      as (fuel & s' & H).
    + congruence.
    + lia.
    + now replace (selects s4 + (m - selects s4))%nat with m by lia.
    + exists (S fuel), s'. now rewrite Hstep.
  - destruct (IH k' s4) as (fuel & s' & H).
    + congruence.
    + assumption.
    + rewrite Hp. lia.
    + exists (S fuel), s'. now rewrite Hstep.
Qed.

(** C9 (amended). With the image absent at every presence check and
    every pull succeeding, the loop returns the "timeout" error, and not
    before the 15 minutes are over.  Its first presence check is made
    when the first retry interval of 15 seconds has elapsed, and nothing
    the loop does is earlier than that. *)
Theorem PullImageWorker_times_out (s : State) (cl : Client) :
  dockerClient (c s) = Some cl ->
  exists (fuel : nat) (s' : State),
    PullImageWorker D fuel s = Returns (Some "timeout") s'
    /\ now s + 15 * Minute <= now s'
    /\ (exists later : list (N * Event),
          trace s' =
          trace s ++
          (now s + 15 * Second,
           Log INFO "pullImageWorker" "HUSKYDOCKER" 31 [AStr (Name (Image_ (c s)))])
          :: (now s + 15 * Second, ImageList (fullImageName (c s)))
          :: later
          /\ Forall (fun e => now s + 15 * Second <= fst e) later)
    /\ (forall (fuel' : nat) (r : option Error) (s'' : State),
          PullImageWorker D fuel' s = Returns r s'' ->
          r = Some "timeout" /\ now s + 15 * Minute <= now s'').
Proof.
  intros Hcl.
  set (timeout := now s + 15 * Minute).
  set (k0 := {| period := 15 * Second; next_tick := now s + 15 * Second;
                buffered := false |}).
  assert (Hloop : forall fuel,
            PullImageWorker D fuel s = PullImageWorker_loop D fuel timeout k0 s)
    by reflexivity.
  destruct (loop_returns 59 timeout k0 s cl Hcl eq_refl) as (fuel & s' & H).
  { subst timeout k0. cbn [next_tick period].
    change (N.of_nat 59) with 59. unfold Minute, Second. lia. }
  destruct fuel as [|fuel]; [discriminate|].
  destruct (select_returns timeout k0 s)
    as (chosen & k' & s1 & Hsel & Hc & Ht & _ & _ & _ & _ & _ & _ & Hfirst).
  destruct Hfirst as [-> Hnow1]; [reflexivity | | |].
  { subst k0. cbn [next_tick]. unfold Second. lia. }
  { subst timeout k0. cbn [next_tick]. unfold Minute, Second. lia. }
  subst k0. cbn [next_tick] in Hnow1.
  destruct (loop_iteration timeout _ s cl _ k' s1 Hcl Hsel Hc)
    as (s4 & t2 & Hstep & Hc4 & _ & Ht2 & Ht4 & Htr).
  rewrite Hstep in H. pose proof H as Hret.
  apply (loop_safety _ _ _ _ cl) in H as (_ & Hto & _ & new & Hnew & Hall);
    [|congruence].
  exists (S fuel), s'.
  split; [rewrite Hloop, Hstep; exact Hret|]. split; [exact Hto|]. split.
  - exists ((t2, ImagePull (CanonicalURL (Image_ (c s1)))) :: new). split.
    + rewrite Hnew, Htr, Ht, Hnow1, Hc, <- app_assoc. reflexivity.
    + constructor; [cbn [fst]; lia|].
      eapply Forall_impl; [exact Hall|]. cbn beta. intros e He. lia.
  - intros fuel' r s'' H'. rewrite Hloop in H'.
    apply (loop_safety _ _ _ _ cl) in H' as (-> & Hto' & _); [|assumption].
    now split.
Qed.

End Worker.

Import samples.

(** A run with the image in place: no pull, one container, removed at
    the end. *)
Example Run_image_present :
  let o := Run daemon_ok 0 "git@x/y" "main" (boot retirejs ∅) in
  returned o = Some None
  /\ option_map (fun s => (Status (c s), Output (c s), CID (c s))) (final o)
     = Some ("finished", "[]", "4f1c")
  /\ option_map (fun s => pulls (trace s)) (final o) = Some []
  /\ option_map (fun s => created_commands (trace s)) (final o)
     = Some [["/bin/sh"; "-c"; "scan.sh git@x/y main"]]
  /\ option_map (fun s => removals (trace s)) (final o) = Some ["4f1c"].
Proof. vm_compute. repeat split. Qed.

(** A run that has to pull: [Run] checks once at the start, the loop
    checks at its first and second tick, and the run goes on when the
    image is there. *)
Example Run_image_arrives :
  let o := Run daemon_image_arrives 10 "git@x/y" "main" (boot retirejs ∅) in
  returned o = Some None
  /\ option_map (fun s => polls (trace s)) (final o)
     = Some [0; 15001000000; 30001000000]%N
  /\ option_map (fun s => pulls (trace s)) (final o)
     = Some ["docker.io/huskyci/retirejs"]
  /\ option_map (fun s => removals (trace s)) (final o) = Some ["4f1c"].
Proof. vm_compute. repeat split. Qed.

(** A run whose image never arrives ends in the timeout of the loop and
    creates no container; with too little fuel the model does not
    return. *)
Example Run_image_absent :
  let o := Run daemon_image_absent 100 "git@x/y" "main" (boot retirejs ∅) in
  returned o = Some (Some "timeout")
  /\ option_map (fun s => created_commands (trace s)) (final o) = Some []
  /\ returned (Run daemon_image_absent 10 "git@x/y" "main" (boot retirejs ∅))
     = None.
Proof. vm_compute. repeat split. Qed.

(** C2, as stated, fails: when the start of the container fails, [Run]
    returns the error and leaves the container it created in place. *)
Lemma Run_start_failure_leaves_container :
  let o := Run daemon_start_fails 0 "git@x/y" "main" (boot retirejs ∅) in
  returned o = Some (Some "cannot start")
  /\ option_map (fun s => created_commands (trace s)) (final o)
     = Some [["/bin/sh"; "-c"; "scan.sh git@x/y main"]]
  /\ option_map (fun s => removals (trace s)) (final o) = Some [].
Proof. vm_compute. repeat split. Qed.

(** The same on the two other error paths after creation. *)
Lemma Run_wait_failure_leaves_container :
  let o := Run daemon_wait_fails 0 "git@x/y" "main" (boot retirejs ∅) in
  returned o = Some (Some "connection reset")
  /\ option_map (fun s => starts (trace s)) (final o) = Some ["4f1c"]
  /\ option_map (fun s => removals (trace s)) (final o) = Some [].
Proof. vm_compute. repeat split. Qed.

Lemma Run_read_failure_leaves_container :
  let o := Run daemon_logs_fail 0 "git@x/y" "main" (boot retirejs ∅) in
  returned o = Some (Some "no such container")
  /\ option_map (fun s => starts (trace s)) (final o) = Some ["4f1c"]
  /\ option_map (fun s => removals (trace s)) (final o) = Some [].
Proof. vm_compute. repeat split. Qed.

(** C7, as stated, fails: with an empty repository URL the command
    resolves to the empty string, and [Run] creates the container with
    that command, starts it, waits for it and returns nil. *)
Lemma Run_with_empty_command_runs_container :
  let o := Run daemon_ok 0 "" "main" (boot retirejs ∅) in
  HandleCmd "" "main" (Command retirejs) = ""
  /\ returned o = Some None
  /\ option_map (fun s => created_commands (trace s)) (final o)
     = Some [["/bin/sh"; "-c"; ""]]
  /\ option_map (fun s => starts (trace s)) (final o) = Some ["4f1c"].
Proof. vm_compute. repeat split. Qed.

Lemma PullImageWorker_times_out_witness :
  let s := boot (connected retirejs) ∅ in
  exists (fuel : nat) (s' : State),
    PullImageWorker daemon_image_absent fuel s = Returns (Some "timeout") s'
    /\ (now s + 15 * Minute <= now s')%N
    /\ (exists later : list (N * Event),
          trace s' =
          trace s ++
          ((now s + 15 * Second)%N,
           Log INFO "pullImageWorker" "HUSKYDOCKER" 31 [AStr (Name (Image_ (c s)))])
          :: ((now s + 15 * Second)%N, ImageList (fullImageName (c s)))
          :: later
          /\ Forall (fun e => (now s + 15 * Second <= fst e)%N) later)
    /\ (forall (fuel' : nat) (r : option Error) (s'' : State),
          PullImageWorker daemon_image_absent fuel' s = Returns r s'' ->
          r = Some "timeout" /\ (now s + 15 * Minute <= now s'')%N).
Proof.
  intros s.
  apply (PullImageWorker_times_out daemon_image_absent
           (fun _ _ => eq_refl) (fun _ _ => eq_refl)
           (fun n => ex_intro _ n (conj (le_n n) eq_refl))
           s {| host := "https://:2376"; certPath := ""; tlsVerify := "1" |}).
  reflexivity.
Defined.

(** C9, as stated, fails: with the image absent and the pulls succeeding
    the loop does end in "timeout", but its earliest presence check is
    made at 15 seconds, when the first retry interval has elapsed, and
    none is made before. *)
Lemma PullImageWorker_first_poll_after_interval :
  let o := PullImageWorker daemon_image_absent 100 (boot (connected retirejs) ∅) in
  returned o = Some (Some "timeout")
  /\ option_map (fun s => head (polls (trace s))) (final o)
     = Some (Some (15 * Second)%N)
  /\ option_map (fun s => existsb (fun t => (t <? 15 * Second)%N) (polls (trace s)))
                (final o)
     = Some false.
Proof. vm_compute. repeat split. Qed.

(** C6, at the failing input: the token between the percent signs is
    replaced and the percent signs stay, with the secret set and with the
    secret unset; the call returns and leaves the state as it was. *)
Theorem HandlePrivateSSHKey_keeps_percent_signs :
  let cmd := "echo '%GIT_PRIVATE_SSH_KEY%' > ~/.ssh/id_rsa" in
  let secret : gmap string string := {[ "HUSKYCI_API_GIT_PRIVATE_SSH_KEY" := "KEY" ]} in
  HandlePrivateSSHKey cmd (boot retirejs secret)
  = Returns "echo '%KEY%' > ~/.ssh/id_rsa" (boot retirejs secret)
  /\ HandlePrivateSSHKey cmd (boot retirejs ∅)
     = Returns "echo '%%' > ~/.ssh/id_rsa" (boot retirejs ∅).
Proof. split; reflexivity. Qed.

(** C8, at the failing input: when the reading of the output fails,
    [Run] returns the error with [FinishedAt] recorded and [Status] still
    "running"; when the wait fails, [Status] is "finished". *)
Theorem Run_read_failure_leaves_status_running :
  let o := Run daemon_logs_fail 0 "git@x/y" "main" (boot retirejs ∅) in
  let o' := Run daemon_wait_fails 0 "git@x/y" "main" (boot retirejs ∅) in
  returned o = Some (Some "no such container")
  /\ option_map (fun s => FinishedAt (c s)) (final o) = Some 4000000%N
  /\ option_map (fun s => Status (c s)) (final o) = Some "running"
  /\ returned o' = Some (Some "connection reset")
  /\ option_map (fun s => Status (c s)) (final o') = Some "finished".
Proof. vm_compute. repeat split. Qed.

End container_facts.

(** ** The evaluator, all of its paths *)

Module evaluator_facts.

Import analysis reports.

Lemma existsb_Permutation {A} (f : A -> bool) (l1 l2 : list A) :
  Permutation l1 l2 -> existsb f l1 = existsb f l2.
Proof.
  induction 1 as [|x l1 l2 _ IH|x y l|l1 l2 l3 _ IH1 _ IH2]; cbn [existsb].
  - reflexivity.
  - now rewrite IH.
  - destruct (f x), (f y); reflexivity.
  - congruence.
Qed.

(** X3. The verdict of the severity scan does not depend on the order in
    which the vulnerabilities come: two outputs with the same
    vulnerabilities, however they are spread over issues and results, get
    the same verdict. *)
Theorem verdict_ignores_order (out1 out2 : RetirejsOutput) (cResult : string) :
  Permutation (vulnerabilities_of out1) (vulnerabilities_of out2) ->
  scan_issues (RetirejsIssues out1) cResult
  = scan_issues (RetirejsIssues out2) cResult.
Proof.
  intros H. rewrite !analysis_facts.scan_issues_spec.
  now rewrite (existsb_Permutation fails _ _ H).
Qed.

Section Evaluator.

Variable json_Unmarshal : string -> Error + RetirejsOutput.
Variable UpdateOneDBAnalysisContainer :
  gmap string Bson -> gmap string Bson -> option Error.
Variable Logger_SendLog :
  gmap string Bson -> string -> list string -> option Error.

Local Abbreviation log_error := (log_error Logger_SendLog).
Local Abbreviation update_and_report :=
  (update_and_report UpdateOneDBAnalysisContainer Logger_SendLog).
Local Abbreviation RetirejsStartAnalysis :=
  (RetirejsStartAnalysis json_Unmarshal UpdateOneDBAnalysisContainer Logger_SendLog).

Lemma error_logs_log_error (messages : list string) :
  error_logs (log_error messages) = [messages].
Proof. unfold analysis.log_error. now destruct Logger_SendLog. Qed.

Lemma error_logs_update_and_report (q u : gmap string Bson) :
  error_logs (update_and_report q u)
  = match UpdateOneDBAnalysisContainer q u with
    | Some err => [["Error updating AnalysisCollection (inside retirejs.go):"; err]]
    | None => []
    end.
Proof.
  unfold analysis.update_and_report. cbn [error_logs flat_map app].
  destruct UpdateOneDBAnalysisContainer; [|reflexivity].
  apply error_logs_log_error.
Qed.

(** The four ways through the evaluator. *)
Lemma RetirejsStartAnalysis_paths (CID cOutput : string) :
  let query : gmap string Bson := {[ "containers.CID" := BString CID ]} in
  (strings.Contains cOutput "ERROR_CLONING" = true
   /\ RetirejsStartAnalysis CID cOutput
      = update_and_report query
          {[ "$set" := BDoc
               {[ "containers.$.cOutput" := BString ("Container error: " ++ cOutput)%string;
                  "containers.$.cResult" := BString "failed" ]} ]})
  \/ (exists err,
        json_Unmarshal cOutput = inl err
        /\ RetirejsStartAnalysis CID cOutput
           = Unmarshal cOutput
             :: log_error ["Unmarshall error (inside retirejs.go):"; err]
             ++ log_error [cOutput])
  \/ (exists out,
        json_Unmarshal cOutput = inr out
        /\ RetirejsStartAnalysis CID cOutput
           = Unmarshal cOutput
             :: update_and_report query
                  {[ "$set" := BDoc {[ "containers.$.cOutput" := BString "No issues found." ]} ]})
  \/ (exists out verdict,
        json_Unmarshal cOutput = inr out
        /\ (verdict = "failed" \/ verdict = "passed")
        /\ RetirejsStartAnalysis CID cOutput
           = Unmarshal cOutput
             :: update_and_report query
                  {[ "$set" := BDoc {[ "containers.$.cResult" := BString verdict ]} ]}).
Proof.
  intros query. unfold analysis.RetirejsStartAnalysis. fold query.
  destruct (strings.Contains cOutput "ERROR_CLONING"); [left; now split|right].
  destruct (json_Unmarshal cOutput) as [err|out]; [left; now exists err|right].
  destruct (Nat.eqb (List.length (RetirejsIssues out)) 0);
    [left; now exists out|right].
  rewrite analysis_facts.scan_issues_spec. exists out.
  destruct (existsb fails (vulnerabilities_of out)); eexists;
    (split; [reflexivity|]); (split; [|reflexivity]); auto.
Qed.

Lemma updates_Unmarshal (d : string) (t : list Effect) :
  updates (Unmarshal d :: t) = updates t.
Proof. reflexivity. Qed.

Lemma parse_attempts_Unmarshal (d : string) (t : list Effect) :
  parse_attempts (Unmarshal d :: t) = d :: parse_attempts t.
Proof. reflexivity. Qed.

Lemma error_logs_Unmarshal (d : string) (t : list Effect) :
  error_logs (Unmarshal d :: t) = error_logs t.
Proof. reflexivity. Qed.

Lemma updates_app (t1 t2 : list Effect) :
  updates (t1 ++ t2) = updates t1 ++ updates t2.
Proof. apply flat_map_app. Qed.

Lemma parse_attempts_app (t1 t2 : list Effect) :
  parse_attempts (t1 ++ t2) = parse_attempts t1 ++ parse_attempts t2.
Proof. apply flat_map_app. Qed.

Lemma error_logs_app (t1 t2 : list Effect) :
  error_logs (t1 ++ t2) = error_logs t1 ++ error_logs t2.
Proof. apply flat_map_app. Qed.

Ltac observe :=
  rewrite ?updates_Unmarshal, ?parse_attempts_Unmarshal, ?error_logs_Unmarshal,
    ?updates_app, ?parse_attempts_app, ?error_logs_app,
    ?analysis_facts.updates_log_error, ?analysis_facts.parse_attempts_log_error,
    ?error_logs_log_error,
    ?analysis_facts.updates_update_and_report,
    ?analysis_facts.parse_attempts_update_and_report,
    ?error_logs_update_and_report.

(** X1. When the output holds no ERROR_CLONING and does not parse, the
    evaluator writes nothing to the database: it makes its one parse
    attempt and sends two messages to the logger, the parse error and the
    raw output as it is. *)
Theorem parse_failure_writes_nothing (CID cOutput : string) (err : Error) :
  strings.Contains cOutput "ERROR_CLONING" = false ->
  json_Unmarshal cOutput = inl err ->
  updates (RetirejsStartAnalysis CID cOutput) = []
  /\ parse_attempts (RetirejsStartAnalysis CID cOutput) = [cOutput]
  /\ error_logs (RetirejsStartAnalysis CID cOutput)
     = [["Unmarshall error (inside retirejs.go):"; err]; [cOutput]].
Proof.
  intros Hmark Hparse.
  destruct (RetirejsStartAnalysis_paths CID cOutput)
    as [[H _] | [(err' & H & ->) | [(out & H & _) | (out & verdict & H & _)]]];
    try congruence.
  assert (err' = err) as -> by congruence.
  observe. repeat split.
Qed.

(** X2. Whatever the output is, the evaluator writes to the database at
    most once and parses at most once; what it writes is addressed to the
    record of the container it was given, and a verdict it writes is
    "failed" or "passed". *)
Theorem writes_once_to_its_record (CID cOutput : string) :
  List.length (updates (RetirejsStartAnalysis CID cOutput)) <= 1
  /\ List.length (parse_attempts (RetirejsStartAnalysis CID cOutput)) <= 1
  /\ Forall (fun qu =>
               fst qu = {[ "containers.CID" := BString CID ]}
               /\ forall v, field_set (snd qu) "containers.$.cResult" = Some v ->
                            v = BString "failed" \/ v = BString "passed")
            (updates (RetirejsStartAnalysis CID cOutput)).
Proof.
  destruct (RetirejsStartAnalysis_paths CID cOutput)
    as [[_ ->] | [(err & _ & ->) | [(out & _ & ->) | (out & verdict & _ & Hv & ->)]]];
    observe; cbn [List.length app]; (split; [lia|]); (split; [lia|]);
    try (constructor; [|constructor]; cbn [fst snd]; (split; [reflexivity|]);
         unfold field_set; rewrite lookup_singleton_eq; intros v).
  - rewrite lookup_insert_ne by discriminate. rewrite lookup_singleton_eq.
    intros [= <-]. now left.
  - constructor.
  - rewrite lookup_singleton_ne by discriminate. discriminate.
  - rewrite lookup_singleton_eq. intros [= <-]. destruct Hv as [-> | ->]; auto.
Qed.

(** X4. When the database gateway rejects the write of the evaluator,
    the error is sent to the logger at level ERROR. *)
Theorem store_error_is_logged (CID cOutput : string)
  (q u : gmap string Bson) (err : Error) :
  In (q, u) (updates (RetirejsStartAnalysis CID cOutput)) ->
  UpdateOneDBAnalysisContainer q u = Some err ->
  In ["Error updating AnalysisCollection (inside retirejs.go):"; err]
     (error_logs (RetirejsStartAnalysis CID cOutput)).
Proof.
  intros Hin Herr.
  destruct (RetirejsStartAnalysis_paths CID cOutput)
    as [[_ H] | [(err' & _ & H) | [(out & _ & H) | (out & verdict & _ & _ & H)]]];
    rewrite H in *; revert Hin; observe; cbn [In app]; intros Hin;
    try (destruct Hin as [[= <- <-] | []]; rewrite Herr; now left).
  destruct Hin.
Qed.

End Evaluator.

Import samples scenarios.

Lemma verdict_ignores_order_witness :
  scan_issues (RetirejsIssues spread_output) "passed"
  = scan_issues (RetirejsIssues (output_of ["high"; "low"])) "passed".
Proof.
  apply (verdict_ignores_order spread_output (output_of ["high"; "low"]) "passed").
  apply perm_swap.
Defined.

Lemma parse_failure_writes_nothing_witness :
  updates (RetirejsStartAnalysis Unmarshal_sample UpdateOne_ok SendLog_ok
             "c1" "Killed") = []
  /\ parse_attempts (RetirejsStartAnalysis Unmarshal_sample UpdateOne_ok SendLog_ok
                       "c1" "Killed") = ["Killed"]
  /\ error_logs (RetirejsStartAnalysis Unmarshal_sample UpdateOne_ok SendLog_ok
                   "c1" "Killed")
     = [["Unmarshall error (inside retirejs.go):"; "invalid character"]; ["Killed"]].
Proof.
  apply (parse_failure_writes_nothing Unmarshal_sample UpdateOne_ok SendLog_ok
           "c1" "Killed" "invalid character"); reflexivity.
Defined.

Lemma store_error_is_logged_witness :
  In ["Error updating AnalysisCollection (inside retirejs.go):"; "no reachable servers"]
     (error_logs (RetirejsStartAnalysis Unmarshal_sample UpdateOne_down SendLog_ok
                    "c1" "one high")).
Proof.
  apply (store_error_is_logged Unmarshal_sample UpdateOne_down SendLog_ok
           "c1" "one high"
           {[ "containers.CID" := BString "c1" ]}
           {[ "$set" := BDoc {[ "containers.$.cResult" := BString "failed" ]} ]}
           "no reachable servers").
  - left. reflexivity.
  - reflexivity.
Defined.

End evaluator_facts.

(** ** The controller, method by method *)

Module controller_facts.

Import docker container observations lifecycle container_facts.
Local Open Scope go_scope.

Lemma container_calls_snoc (tr : list (N * Event)) (t : N) (e : Event) :
  container_calls (tr ++ [(t, e)])
  = container_calls tr ++ container_calls [(t, e)].
Proof. apply flat_map_app. Qed.

Lemma error_codes_snoc (tr : list (N * Event)) (t : N) (e : Event) :
  error_codes (tr ++ [(t, e)]) = error_codes tr ++ error_codes [(t, e)].
Proof. apply flat_map_app. Qed.

Lemma moved_refl (s : State) : moved s s [].
Proof. unfold moved. rewrite app_nil_r. repeat split. lia. Qed.

Lemma moved_trans (s s1 s2 : State) (l1 l2 : list Event) :
  moved s s1 l1 -> moved s1 s2 l2 -> moved s s2 (l1 ++ l2).
Proof.
  unfold moved. intros (H1 & K1 & T1) (H2 & K2 & T2).
  rewrite H2, H1, app_assoc. repeat split; [congruence | lia].
Qed.

Ltac moved_done :=
  unfold moved, secret in *; state_simpl;
  rewrite ?container_calls_snoc in *; cbn [container_calls flat_map snd app] in *;
  rewrite ?app_nil_r in *;
  rewrite ?lookup_insert_ne by discriminate;
  repeat split; first [reflexivity | assumption | congruence | lia].

Section Methods.

Variable D : Daemon.

Lemma setDockerClientEnvs_moved s a s' :
  setDockerClientEnvs D s = Returns a s' -> moved s s' [] /\ c s' = c s.
Proof.
  unfold setDockerClientEnvs, os_Setenv. unfold_prims. intros H.
  crunch; (split; [moved_done | reflexivity]).
Qed.

Lemma NewDockerClient_moved s a s' :
  NewDockerClient D s = Returns a s' ->
  moved s s' []
  /\ match a with
     | Some _ => c s' = c s
     | None =>
         c s' = set_dockerClient
                  (Some {| host := default "" (env s' !! "DOCKER_HOST");
                           certPath := default "" (env s' !! "DOCKER_CERT_PATH");
                           tlsVerify := default "" (env s' !! "DOCKER_TLS_VERIFY") |})
                  (c s)
     end.
Proof.
  unfold NewDockerClient, setDockerClientEnvs, client_NewEnvClient, os_Setenv.
  unfold_prims. intros H.
  crunch; (split; [moved_done | reflexivity]).
Qed.

Lemma ImageIsLoaded_moved s a s' :
  ImageIsLoaded D s = Returns a s' -> moved s s' [] /\ c s' = c s.
Proof.
  unfold ImageIsLoaded, daemon_call. unfold_prims. intros H.
  crunch; (split; [moved_done | reflexivity]).
Qed.

Lemma PullImage_moved s a s' :
  PullImage D s = Returns a s' -> moved s s' [] /\ c s' = c s.
Proof.
  unfold PullImage, daemon_call. unfold_prims. intros H.
  crunch; (split; [moved_done | reflexivity]).
Qed.

Lemma select_moved timeout k s a s' :
  select D timeout k s = Returns a s' -> moved s s' [] /\ c s' = c s.
Proof.
  intros H.
  destruct (select_returns D timeout k s)
    as (chosen & k' & s1 & Hsel & Hc & Ht & _ & He & _ & Hnow & _).
  rewrite Hsel in H. injection H as _ <-.
  split; [|assumption]. unfold moved, secret. rewrite Ht, He, app_nil_r.
  repeat split. assumption.
Qed.

Lemma PullImageWorker_loop_moved fuel timeout k s a s' :
  PullImageWorker_loop D fuel timeout k s = Returns a s' ->
  moved s s' [] /\ c s' = c s.
Proof.
  revert k s a s'. induction fuel as [|fuel IH]; intros k s a s' H; [discriminate|].
  cbn [PullImageWorker_loop] in H.
  apply bind_Returns in H as ([chosen k'] & s1 & Hsel & H).
  apply select_moved in Hsel as [Hm1 Hc1].
  destruct chosen.
  - unfold_prims. crunch. split; [|assumption].
    apply (moved_trans _ _ _ [] [] Hm1). moved_done.
  - apply bind_Returns in H as (k0 & s2 & H2 & H).
    apply bind_Returns in H as ([] & s3 & H3 & H).
    apply bind_Returns in H as ([isLoaded err] & s4 & H4 & H).
    apply ImageIsLoaded_moved in H4 as [Hm4 Hc4].
    assert (Hm3 : moved s1 s3 [] /\ c s3 = c s1)
      by (clear H; unfold_prims; crunch; (split; [moved_done | reflexivity])).
    destruct Hm3 as [Hm3 Hc3].
    pose proof (moved_trans _ _ _ [] [] Hm1
                  (moved_trans _ _ _ [] [] Hm3 Hm4)) as Hm.
    cbn [app] in Hm.
    destruct err as [err|].
    + unfold_prims. crunch. split; [|congruence].
      apply (moved_trans _ _ _ [] [] Hm). moved_done.
    + destruct isLoaded.
      * unfold_prims. crunch. split; [|congruence].
        apply (moved_trans _ _ _ [] [] Hm). moved_done.
      * apply bind_Returns in H as (err & s5 & H5 & H).
        apply PullImage_moved in H5 as [Hm5 Hc5].
        pose proof (moved_trans _ _ _ [] [] Hm Hm5) as Hm'. cbn [app] in Hm'.
        destruct err as [err|].
        -- unfold_prims. crunch. split; [|congruence].
           apply (moved_trans _ _ _ [] [] Hm'). moved_done.
        -- apply IH in H as [Hm6 Hc6]. split; [|congruence].
           apply (moved_trans _ _ _ [] [] Hm' Hm6).
Qed.

Lemma PullImageWorker_moved fuel s a s' :
  PullImageWorker D fuel s = Returns a s' -> moved s s' [] /\ c s' = c s.
Proof.
  unfold PullImageWorker, time_After, time_NewTicker. intros H.
  apply bind_Returns in H as (t & s1 & H1 & H).
  apply bind_Returns in H as (k & s2 & H2 & H).
  apply PullImageWorker_loop_moved in H.
  unfold_prims. crunch. assumption.
Qed.

Lemma Create_moved repositoryURL branch s a s' :
  Create D repositoryURL branch s = Returns a s' ->
  moved s s' [ContainerCreate (request repositoryURL branch s)]
  /\ match a with
     | Some err =>
         ContainerCreate_ans D (calls s) (request repositoryURL branch s) = inl err
         /\ c s' = c s
     | None =>
         exists id,
           ContainerCreate_ans D (calls s) (request repositoryURL branch s) = inr id
           /\ c s' = set_CID id (c s)
     end.
Proof.
  unfold Create, HandlePrivateSSHKey, daemon_call. unfold_prims. intros H.
  crunch; (split; [moved_done|]); unfold request, secret; eauto.
Qed.

Lemma Start_moved s a s' :
  Start D s = Returns a s' ->
  moved s s' [ContainerStart (CID (c s))] /\ c s' = c s.
Proof.
  unfold Start, daemon_call. unfold_prims. intros H.
  crunch; (split; [moved_done | reflexivity]).
Qed.

Lemma Wait_moved s a s' :
  Wait D s = Returns a s' ->
  moved s s' [ContainerWait (CID (c s))] /\ c s' = c s
  /\ a = snd (ContainerWait_ans D (calls s) (CID (c s)))
  /\ error_codes (trace s')
     = error_codes (trace s)
       ++ (if Z.eqb (fst (ContainerWait_ans D (calls s) (CID (c s)))) 0
           then [] else [3028%Z]).
Proof.
  unfold Wait, daemon_call. unfold_prims. intros H.
  crunch; (split; [moved_done|]); (split; [reflexivity|]);
    match goal with E : ContainerWait_ans _ _ _ = _ |- _ => rewrite E end;
    cbn [fst snd]; (split; [reflexivity|]);
    match goal with E : negb _ = _ |- _ =>
      apply (f_equal negb) in E; rewrite negb_involutive in E; rewrite E end;
    rewrite ?error_codes_snoc; cbn [error_codes flat_map snd app negb];
    rewrite ?app_nil_r; reflexivity.
Qed.

Lemma ReadOutput_moved isSTDOUT isSTDERR s a s' :
  ReadOutput D isSTDOUT isSTDERR s = Returns a s' ->
  moved s s' [ContainerLogs (CID (c s)) isSTDOUT isSTDERR]
  /\ match a with
     | Some err =>
         (ContainerLogs_ans D (calls s) (CID (c s)) isSTDOUT isSTDERR = inl err
          \/ ContainerLogs_ans D (calls s) (CID (c s)) isSTDOUT isSTDERR
             = inr (inl err))
         /\ c s' = c s
     | None =>
         exists body,
           ContainerLogs_ans D (calls s) (CID (c s)) isSTDOUT isSTDERR
           = inr (inr body)
           /\ c s' = set_Output body (c s)
     end.
Proof.
  unfold ReadOutput, daemon_call. unfold_prims. intros H.
  crunch; (split; [moved_done|]); eauto.
Qed.

Lemma Remove_moved s a s' :
  Remove D s = Returns a s' ->
  moved s s' [ContainerRemove (CID (c s))] /\ c s' = c s.
Proof.
  unfold Remove, daemon_call. unfold_prims. intros H.
  crunch; (split; [moved_done | reflexivity]).
Qed.

(** Every way through [Run]: how many of the five calls of the lifecycle
    were made, and what the record holds then. *)
Lemma Run_stages fuel repositoryURL branch s r s' :
  Run D fuel repositoryURL branch s = Returns r s' ->
  exists (n : nat) (id : string),
    moved s s' (firstn n (protocol (request repositoryURL branch s) id))
    /\ match n with
       | 0 =>
           r <> None
           /\ (c s' = c s \/ exists cl, c s' = set_dockerClient (Some cl) (c s))
       | 1 =>
           r <> None /\ exists cl, c s' = set_dockerClient (Some cl) (c s)
       | 2 | 3 =>
           r <> None
           /\ exists cl t1,
                c s' = filled (c s) cl id "finished" (Output (c s)) t1
                         (FinishedAt (c s))
       | 4 =>
           r <> None
           /\ exists cl t1 t2,
                (t1 <= t2)%N
                /\ c s' = filled (c s) cl id "running" (Output (c s)) t1 t2
       | 5 =>
           r = None
           /\ exists cl t1 t2 body k,
                (now s <= t1 /\ t1 <= t2 /\ t2 <= now s')%N
                /\ ContainerLogs_ans D k id true false = inr (inr body)
                /\ c s' = filled (c s) cl id "finished" body t1 t2
       | _ => False
       end.
Proof.
  unfold Run. intros H.
  apply bind_Returns in H as (e1 & s1 & H1 & H).
  apply NewDockerClient_moved in H1 as [M1 C1].
  destruct e1 as [e1|].
  { exists 0, "". unfold_prims. crunch.
    split; [apply (moved_trans _ _ _ [] [] M1); moved_done|].
    split; [discriminate | now left]. }
  apply bind_Returns in H as ([imageIsLoaded e2] & s2 & H2 & H).
  apply ImageIsLoaded_moved in H2 as [M2 C2].
  pose proof (moved_trans _ _ _ [] [] M1 M2) as M12. cbn [app] in M12.
  rewrite <- C2 in C1.
  set (cl := {| host := default "" (env s1 !! "DOCKER_HOST");
                certPath := default "" (env s1 !! "DOCKER_CERT_PATH");
                tlsVerify := default "" (env s1 !! "DOCKER_TLS_VERIFY") |}) in *.
  clearbody cl. clear C2 M1 M2.
  destruct e2 as [e2|].
  { exists 0, "". unfold_prims. crunch.
    split; [exact M12|]. split; [discriminate | right; now exists cl]. }
  apply bind_Returns in H as (e3 & s3 & H3 & H).
  assert (M3 : moved s2 s3 [] /\ c s3 = c s2).
  { clear H. destruct imageIsLoaded; cbn [negb] in H3.
    - unfold_prims. crunch. split; [apply moved_refl | reflexivity].
    - now apply PullImageWorker_moved in H3. }
  destruct M3 as [M3 C3]. clear H3.
  pose proof (moved_trans _ _ _ [] [] M12 M3) as M13. cbn [app] in M13.
  assert (K3 : c s3 = set_dockerClient (Some cl) (c s)) by congruence.
  clear C1 C3 M3 M12.
  destruct e3 as [e3|].
  { exists 0, "". unfold_prims. crunch.
    split; [exact M13|]. split; [discriminate | right; now exists cl]. }
  assert (Hreq : request repositoryURL branch s3 = request repositoryURL branch s).
  { unfold request. destruct M13 as (_ & -> & _). rewrite K3. reflexivity. }
  apply bind_Returns in H as (e4 & s4 & H4 & H).
  apply Create_moved in H4 as [M4 C4]. rewrite Hreq in M4, C4.
  pose proof (moved_trans _ _ _ _ _ M13 M4) as M14. cbn [app] in M14.
  apply bind_Returns in H as (k & s4' & Hk & H).
  assert (s4' = s4 /\ k = c s4) as [-> ->]
    by (clear H; unfold_prims; crunch; split; reflexivity).
  clear Hk.
  destruct e4 as [e4|].
  { destruct C4 as [_ C4]. exists 1, "". unfold_prims. crunch.
    split; [apply (moved_trans _ _ _ _ [] M14); moved_done|].
    split; [discriminate | exists cl; congruence]. }
  destruct C4 as (id & _ & C4). rewrite K3 in C4. clear K3 M4 M13 Hreq.
  (* step 4 *)
  apply bind_Returns in H as ([] & s4a & Ha & H).
  apply bind_Returns in H as (t1 & s4b & Hb & H).
  apply bind_Returns in H as ([] & s4c & Hc & H).
  apply bind_Returns in H as (e5 & s5 & H5 & H).
  apply Start_moved in H5 as [M5 C5].
  assert (P5 : moved s4 s4c []
               /\ c s4c = set_StartedAt t1 (set_Status "created" (c s4))
               /\ (now s <= t1 /\ t1 <= now s4c)%N).
  { clear H M5 C5. destruct M14 as (_ & _ & T). unfold_prims. crunch.
    split; [moved_done|]. split; [reflexivity | lia]. }
  destruct P5 as (M5' & C5' & T5). clear Ha Hb Hc.
  rewrite C5', C4 in C5. rewrite C5', C4 in M5.
  change (CID _) with id in M5.
  pose proof (moved_trans _ _ _ _ _ M14 (moved_trans _ _ _ _ _ M5' M5)) as M15.
  cbn [app] in M15.
  assert (T5' : (now s <= t1 /\ t1 <= now s5)%N)
    by (destruct M5 as (_ & _ & T); lia).
  clear M5 M5' M14 C4 C5' T5.
  destruct e5 as [e5|].
  { exists 2, id. unfold_prims. crunch.
    split; [apply (moved_trans _ _ _ _ [] M15); moved_done|].
    split; [discriminate|]. exists cl, t1. rewrite C5. reflexivity. }
  (* step 5 *)
  apply bind_Returns in H as ([] & s5a & Ha & H).
  apply bind_Returns in H as ([] & s5b & Hb & H).
  apply bind_Returns in H as (e6 & s6 & H6 & H).
  apply Wait_moved in H6 as (M6 & C6 & _).
  assert (P6 : moved s5 s5b [] /\ c s5b = set_Status "running" (c s5)).
  { clear H M6 C6. unfold_prims. crunch. split; [moved_done | reflexivity]. }
  destruct P6 as (M6' & C6'). clear Ha Hb.
  rewrite C6', C5 in C6. rewrite C6', C5 in M6.
  change (CID _) with id in M6.
  pose proof (moved_trans _ _ _ _ _ M15 (moved_trans _ _ _ _ _ M6' M6)) as M16.
  cbn [app] in M16.
  assert (T6 : (now s <= t1 /\ t1 <= now s6)%N)
    by (destruct M6 as (_ & _ & T), M6' as (_ & _ & T'); lia).
  clear M6 M6' M15 C5 C6' T5'.
  destruct e6 as [e6|].
  { exists 3, id. unfold_prims. crunch.
    split; [apply (moved_trans _ _ _ _ [] M16); moved_done|].
    split; [discriminate|]. exists cl, t1. rewrite C6. reflexivity. }
  (* step 6 *)
  apply bind_Returns in H as (t2 & s6a & Ha & H).
  apply bind_Returns in H as ([] & s6b & Hb & H).
  apply bind_Returns in H as (e7 & s7 & H7 & H).
  apply ReadOutput_moved in H7 as [M7 C7].
  assert (P7 : moved s6 s6b [] /\ c s6b = set_FinishedAt t2 (c s6)
               /\ (t1 <= t2 /\ t2 <= now s6b)%N /\ calls s6b = calls s6).
  { clear H M7 C7. unfold_prims. crunch.
    split; [moved_done|]. split; [reflexivity|]. split; [lia | reflexivity]. }
  destruct P7 as (M7' & C7' & T7 & N7). clear Ha Hb.
  rewrite C7', C6 in C7. rewrite C7', C6 in M7.
  change (CID _) with id in M7, C7.
  pose proof (moved_trans _ _ _ _ _ M16 (moved_trans _ _ _ _ _ M7' M7)) as M17.
  cbn [app] in M17.
  assert (T7' : (now s <= t1 /\ t1 <= t2 /\ t2 <= now s7)%N)
    by (destruct M7 as (_ & _ & T); lia).
  clear M7 M7' M16 C6 T6 T7.
  destruct e7 as [e7|].
  { destruct C7 as [_ C7]. exists 4, id. unfold_prims. crunch.
    split; [apply (moved_trans _ _ _ _ [] M17); moved_done|].
    split; [discriminate|]. exists cl, t1, t2. split; [lia|].
    rewrite C7. reflexivity. }
  destruct C7 as (body & A7 & C7).
  (* step 7 *)
  apply bind_Returns in H as ([] & s7a & Ha & H).
  apply bind_Returns in H as ([] & s7b & Hb & H).
  apply bind_Returns in H as (e8 & s8 & H8 & H).
  apply Remove_moved in H8 as [M8 C8].
  assert (P8 : moved s7 s7b [] /\ c s7b = set_Status "finished" (c s7)).
  { clear H M8 C8. unfold_prims. crunch. split; [moved_done | reflexivity]. }
  destruct P8 as (M8' & C8'). clear Ha Hb.
  rewrite C8', C7 in C8. rewrite C8', C7 in M8.
  change (CID _) with id in M8.
  pose proof (moved_trans _ _ _ _ _ M17 (moved_trans _ _ _ _ _ M8' M8)) as M18.
  cbn [app] in M18.
  assert (T8 : (now s <= t1 /\ t1 <= t2 /\ t2 <= now s8)%N)
    by (destruct M8 as (_ & _ & T), M8' as (_ & _ & T'); lia).
  apply bind_Returns in H as ([] & s9 & H9 & H).
  unfold ret in H. injection H as <- <-.
  assert (P9 : moved s8 s9 [] /\ c s9 = c s8)
    by (destruct e8; unfold_prims; crunch; (split; [moved_done | reflexivity])).
  destruct P9 as (M9 & C9).
  exists 5, id. split; [apply (moved_trans _ _ _ _ [] M18 M9)|].
  split; [reflexivity|]. exists cl, t1, t2, body, (calls s6b).
  split; [destruct M9 as (_ & _ & T); lia|]. split; [exact A7|].
  rewrite C9, C8. reflexivity.
Qed.


(** *** The image loop, tick by tick *)

Lemma polls_snoc (tr : list (N * Event)) (t : N) (e : Event) :
  polls (tr ++ [(t, e)])
  = polls tr ++ match e with ImageList _ => [t] | _ => [] end.
Proof.
  unfold polls. rewrite flat_map_app. cbn [flat_map fst snd].
  now rewrite app_nil_r.
Qed.

Lemma pulls_snoc (tr : list (N * Event)) (t : N) (e : Event) :
  pulls (tr ++ [(t, e)])
  = pulls tr ++ match e with ImagePull ref => [ref] | _ => [] end.
Proof.
  unfold pulls. rewrite flat_map_app. cbn [flat_map fst snd].
  now rewrite app_nil_r.
Qed.

Lemma error_codes_snoc_event (tr : list (N * Event)) (t : N) (e : Event) :
  error_codes (tr ++ [(t, e)])
  = error_codes tr ++ match e with Log ERROR _ _ code _ => [code] | _ => [] end.
Proof.
  unfold error_codes. rewrite flat_map_app. cbn [flat_map fst snd].
  now rewrite app_nil_r.
Qed.

Ltac trace_simpl :=
  rewrite ?polls_snoc, ?pulls_snoc, ?error_codes_snoc_event;
  cbv beta iota; rewrite ?app_nil_r.

(** The loop at its first tick: the first [select] sleeps for one retry
    interval and takes the tick. *)
Lemma first_select (s : State) :
  let timeout := (now s + 15 * Minute)%N in
  let retryTick := {| period := 15 * Second; next_tick := now s + 15 * Second;
                      buffered := false |} in
  exists k' s1,
    select D timeout retryTick s = Returns (case_retryTick, k') s1
    /\ c s1 = c s /\ trace s1 = trace s /\ calls s1 = calls s
    /\ now s1 = (now s + 15 * Second)%N.
Proof.
  intros timeout retryTick.
  destruct (select_returns D timeout retryTick s)
    as (chosen & k' & s1 & Hsel & Hc & Ht & Hn & _ & _ & _ & _ & _ & Hfirst).
  destruct Hfirst as [-> Hnow]; [reflexivity | | |].
  - subst retryTick. cbn [next_tick]. unfold Second. lia.
  - subst timeout retryTick. cbn [next_tick]. unfold Minute, Second. lia.
  - exists k', s1. repeat split; assumption.
Qed.

(** X10. When the image is there at the first presence check of the
    loop, PullImageWorker returns nil from that check, one retry interval
    and one round trip after it was called, without a pull. *)
Theorem PullImageWorker_image_present (s : State) (cl : Client)
  (image : string) (images : list string) :
  dockerClient (c s) = Some cl ->
  ImageList_ans D (calls s) (fullImageName (c s)) = inr (image :: images) ->
  exists s' : State,
    (forall fuel, PullImageWorker D (S fuel) s = Returns None s')
    /\ c s' = c s
    /\ now s' = (now s + 15 * Second + round_trip D (calls s))%N
    /\ polls (trace s') = polls (trace s) ++ [(now s + 15 * Second)%N]
    /\ pulls (trace s') = pulls (trace s).
Proof.
  intros Hcl Hans.
  destruct (first_select s) as (k' & s1 & Hsel & Hc & Ht & Hn & Hnow).
  eexists. split.
  - intros fuel. unfold PullImageWorker, time_After, time_NewTicker.
    unfold_prims. cbn [PullImageWorker_loop]. unfold bind at 1. rewrite Hsel.
    unfold ImageIsLoaded, daemon_call. unfold_prims. state_simpl.
    rewrite Hc, Hcl, Hn, Hans. cbn [List.length Nat.eqb negb]. reflexivity.
  - state_simpl. rewrite Hc, Ht, Hnow. trace_simpl. repeat split; reflexivity.
Qed.

(** X11. An error of the first presence check ends the loop at once:
    PullImageWorker returns that error, logged under code 3029, after one
    check and no pull. *)
Theorem PullImageWorker_check_error (s : State) (cl : Client) (err : Error) :
  dockerClient (c s) = Some cl ->
  ImageList_ans D (calls s) (fullImageName (c s)) = inl err ->
  exists s' : State,
    (forall fuel, PullImageWorker D (S fuel) s = Returns (Some err) s')
    /\ polls (trace s') = polls (trace s) ++ [(now s + 15 * Second)%N]
    /\ pulls (trace s') = pulls (trace s)
    /\ error_codes (trace s') = error_codes (trace s) ++ [3029%Z].
Proof.
  intros Hcl Hans.
  destruct (first_select s) as (k' & s1 & Hsel & Hc & Ht & Hn & Hnow).
  eexists. split.
  - intros fuel. unfold PullImageWorker, time_After, time_NewTicker.
    unfold_prims. cbn [PullImageWorker_loop]. unfold bind at 1. rewrite Hsel.
    unfold ImageIsLoaded, daemon_call. unfold_prims. state_simpl.
    rewrite Hc, Hcl, Hn, Hans. reflexivity.
  - state_simpl. rewrite Ht, Hnow. trace_simpl. repeat split; reflexivity.
Qed.

(** X12. An error of the first pull ends the loop at once:
    PullImageWorker returns that error, logged under code 3013, after one
    check and that one pull. *)
Theorem PullImageWorker_pull_error (s : State) (cl : Client) (err : Error) :
  dockerClient (c s) = Some cl ->
  ImageList_ans D (calls s) (fullImageName (c s)) = inr [] ->
  ImagePull_ans D (S (calls s)) (CanonicalURL (Image_ (c s))) = Some err ->
  exists s' : State,
    (forall fuel, PullImageWorker D (S fuel) s = Returns (Some err) s')
    /\ polls (trace s') = polls (trace s) ++ [(now s + 15 * Second)%N]
    /\ pulls (trace s') = pulls (trace s) ++ [CanonicalURL (Image_ (c s))]
    /\ error_codes (trace s') = error_codes (trace s) ++ [3013%Z].
Proof.
  intros Hcl Hans Hpull.
  destruct (first_select s) as (k' & s1 & Hsel & Hc & Ht & Hn & Hnow).
  eexists. split.
  - intros fuel. unfold PullImageWorker, time_After, time_NewTicker.
    unfold_prims. cbn [PullImageWorker_loop]. unfold bind at 1. rewrite Hsel.
    unfold ImageIsLoaded, PullImage, daemon_call. unfold_prims. state_simpl.
    rewrite Hc, Hcl, Hn, Hans. cbn [List.length Nat.eqb negb]. state_simpl.
    rewrite ?Hc, ?Hcl, Hpull. reflexivity.
  - state_simpl. rewrite Ht, Hnow, ?Hc. trace_simpl. repeat split; reflexivity.
Qed.

Lemma ImageIsLoaded_inv s isLoaded err s' :
  ImageIsLoaded D s = Returns (isLoaded, err) s' ->
  c s' = c s /\ calls s' = S (calls s)
  /\ trace s' = trace s ++ [(now s, ImageList (fullImageName (c s)))]
  /\ match ImageList_ans D (calls s) (fullImageName (c s)) with
     | inl e => isLoaded = false /\ err = Some e
     | inr images => isLoaded = negb (Nat.eqb (List.length images) 0) /\ err = None
     end.
Proof.
  unfold ImageIsLoaded, daemon_call. unfold_prims. intros H.
  crunch; repeat split;
    try match goal with E : ImageList_ans _ _ _ = _ |- _ => rewrite E end;
    repeat split; reflexivity.
Qed.

Lemma PullImage_inv s err s' :
  PullImage D s = Returns err s' ->
  c s' = c s /\ calls s' = S (calls s)
  /\ trace s' = trace s ++ [(now s, ImagePull (CanonicalURL (Image_ (c s))))].
Proof.
  unfold PullImage, daemon_call. unfold_prims. intros H.
  crunch; repeat split; reflexivity.
Qed.

(** In the loop every pull follows a presence check that found nothing,
    and the loop returns nil only from a check that found the image. *)
Lemma PullImageWorker_loop_counts fuel timeout k s r s' :
  PullImageWorker_loop D fuel timeout k s = Returns r s' ->
  c s' = c s
  /\ exists checks fetches : nat,
       List.length (polls (trace s')) = List.length (polls (trace s)) + checks
       /\ List.length (pulls (trace s')) = List.length (pulls (trace s)) + fetches
       /\ fetches <= checks <= fetches + 1
       /\ (r = None ->
           checks = fetches + 1
           /\ exists image images,
                ImageList_ans D (Nat.pred (calls s')) (fullImageName (c s))
                = inr (image :: images)).
Proof.
  revert k s r s'. induction fuel as [|fuel IH]; intros k s r s' H; [discriminate|].
  cbn [PullImageWorker_loop] in H.
  apply bind_Returns in H as ([chosen k'] & s1 & Hsel & H).
  destruct (select_returns D timeout k s)
    as (chosen' & k'' & s1' & Hsel' & Hc1 & Ht1 & Hn1 & _).
  rewrite Hsel' in Hsel. injection Hsel as -> -> ->.
  destruct chosen.
  - unfold_prims. crunch. split; [assumption|]. exists 0, 0.
    rewrite Ht1. trace_simpl. repeat split; try lia; discriminate.
  - apply bind_Returns in H as (k0 & s2 & H2 & H).
    apply bind_Returns in H as ([] & s3 & H3 & H).
    apply bind_Returns in H as ([isLoaded err] & s4 & H4 & H).
    assert (P3 : c s3 = c s /\ calls s3 = calls s
                 /\ polls (trace s3) = polls (trace s)
                 /\ pulls (trace s3) = pulls (trace s)).
    { clear H H4. unfold_prims. crunch. rewrite Ht1. trace_simpl.
      repeat split; assumption. }
    destruct P3 as (Hc3 & Hn3 & Hp3 & Hq3). clear H2 H3.
    apply ImageIsLoaded_inv in H4 as (Hc4 & Hn4 & Ht4 & Hans).
    assert (Hp4 : List.length (polls (trace s4)) = List.length (polls (trace s)) + 1
                  /\ pulls (trace s4) = pulls (trace s)).
    { rewrite Ht4. trace_simpl. rewrite length_app, Hp3, Hq3. split; reflexivity. }
    destruct Hp4 as (Hp4 & Hq4).
    rewrite Hc3, Hn3 in Hans.
    destruct (ImageList_ans D (calls s) (fullImageName (c s))) as [e|images] eqn:Eans;
      destruct Hans as [-> ->].
    + unfold_prims. crunch. split; [congruence|]. exists 1, 0. trace_simpl.
      rewrite Hq4. repeat split; try lia; discriminate.
    + destruct images as [|image images]; cbn [List.length Nat.eqb negb] in H.
      * apply bind_Returns in H as (err & s5 & H5 & H).
        apply PullImage_inv in H5 as (Hc5 & Hn5 & Ht5).
        destruct err as [err|].
        -- unfold_prims. crunch. split; [congruence|]. exists 1, 1.
           rewrite Ht5. trace_simpl. rewrite !length_app, Hq4. cbn [List.length].
           repeat split; try lia; discriminate.
        -- apply IH in H as (Hc6 & checks & fetches & Hp & Hq & Hle & Hnil).
           split; [congruence|]. exists (S checks), (S fetches).
           rewrite Hp, Hq, Ht5. trace_simpl. rewrite !length_app, Hq4.
           cbn [List.length]. repeat split; try lia.
           ++ apply Hnil in H. lia.
           ++ apply Hnil in H as (_ & image & images & Hseen).
              exists image, images. rewrite <- Hseen. f_equal. congruence.
      * unfold_prims. crunch. split; [congruence|]. exists 1, 0. trace_simpl.
        rewrite Hq4. repeat split; try lia.
        exists image, images. rewrite Hn4, Hn3. exact Eans.
Qed.

(** X13. However PullImageWorker ends, it made as many pulls as
    presence checks or one less, and did not touch the container record;
    it returns nil only from a presence check, its last call to the
    daemon, that found the image. *)
Theorem PullImageWorker_success_means_image_seen fuel s r s' :
  PullImageWorker D fuel s = Returns r s' ->
  c s' = c s
  /\ exists checks fetches : nat,
       List.length (polls (trace s')) = List.length (polls (trace s)) + checks
       /\ List.length (pulls (trace s')) = List.length (pulls (trace s)) + fetches
       /\ fetches <= checks <= fetches + 1
       /\ (r = None ->
           checks = fetches + 1
           /\ exists image images,
                ImageList_ans D (Nat.pred (calls s')) (fullImageName (c s))
                = inr (image :: images)).
Proof.
  unfold PullImageWorker, time_After, time_NewTicker. intros H.
  apply bind_Returns in H as (t & s1 & H1 & H).
  apply bind_Returns in H as (k & s2 & H2 & H).
  apply PullImageWorker_loop_counts in H.
  unfold_prims. crunch. exact H.
Qed.

(** *** The connection to the daemon *)

Lemma setDockerClientEnvs_env s s' :
  setDockerClientEnvs D s = Returns None s' ->
  env s' = docker_env (env s) /\ c s' = c s /\ now s' = now s.
Proof.
  unfold setDockerClientEnvs, os_Setenv. unfold_prims. intros H.
  crunch; unfold docker_env;
    repeat match goal with E : String.eqb _ _ = _ |- _ => rewrite E end;
    repeat split; reflexivity.
Qed.

Lemma docker_env_idempotent (e : gmap string string) :
  docker_env (docker_env e) = docker_env e.
Proof.
  unfold docker_env at 1.
  assert (Hget : forall key,
            key <> "DOCKER_HOST" -> key <> "DOCKER_CERT_PATH" ->
            key <> "DOCKER_TLS_VERIFY" -> docker_env e !! key = e !! key).
  { intros key H1 H2 H3. unfold docker_env.
    now rewrite !lookup_insert_ne by congruence. }
  rewrite !Hget by discriminate.
  apply map_eq. intros key. unfold docker_env.
  rewrite !lookup_insert. repeat case_decide; reflexivity.
Qed.

(** X5. When every [os.Setenv] succeeds, setDockerClientEnvs returns nil
    and leaves DOCKER_HOST at https://<address>:<port>, DOCKER_CERT_PATH
    at the certificate path and DOCKER_TLS_VERIFY at the verification
    flag of the HUSKYCI_DOCKERAPI_ variables, with port 2376 and flag 1
    when these are unset or empty; no other variable and nothing of the
    container changes. *)
Theorem setDockerClientEnvs_sets_docker_variables (s : State) :
  (forall key value, Setenv_err D key value = None) ->
  let get key := default "" (env s !! key) in
  let port :=
    if String.eqb (get "HUSKYCI_DOCKERAPI_PORT") "" then "2376"
    else get "HUSKYCI_DOCKERAPI_PORT" in
  let verify :=
    if String.eqb (get "HUSKYCI_DOCKERAPI_TLS_VERIFY") "" then "1"
    else get "HUSKYCI_DOCKERAPI_TLS_VERIFY" in
  exists s' : State,
    setDockerClientEnvs D s = Returns None s'
    /\ c s' = c s
    /\ env s' !! "DOCKER_HOST"
       = Some ("https://" ++ get "HUSKYCI_DOCKERAPI_ADDR" ++ ":" ++ port)%string
    /\ env s' !! "DOCKER_CERT_PATH" = Some (get "HUSKYCI_DOCKERAPI_CERT_PATH")
    /\ env s' !! "DOCKER_TLS_VERIFY" = Some verify
    /\ forall key,
         key <> "DOCKER_HOST" -> key <> "DOCKER_CERT_PATH" ->
         key <> "DOCKER_TLS_VERIFY" -> env s' !! key = env s !! key.
Proof.
  intros Hok get port verify.
  unfold setDockerClientEnvs, os_Setenv. unfold_prims. rewrite !Hok.
  eexists. split; [reflexivity|]. state_simpl. split; [reflexivity|].
  split; [now rewrite !lookup_insert_ne, lookup_insert_eq by discriminate|].
  split; [now rewrite lookup_insert_ne, lookup_insert_eq by discriminate|].
  split; [now rewrite lookup_insert_eq|].
  intros key H1 H2 H3. now rewrite !lookup_insert_ne by congruence.
Qed.

(** X6. Setting the client variables a second time changes nothing:
    after two successful calls the environment is what it was after the
    first. *)
Theorem setDockerClientEnvs_twice (s s1 s2 : State) :
  setDockerClientEnvs D s = Returns None s1 ->
  setDockerClientEnvs D s1 = Returns None s2 ->
  env s2 = env s1.
Proof.
  intros H1 H2.
  apply setDockerClientEnvs_env in H1 as (E1 & _).
  apply setDockerClientEnvs_env in H2 as (E2 & _).
  rewrite E2, E1. apply docker_env_idempotent.
Qed.

(** X7. When setDockerClientEnvs returns an error, the last thing it did
    was to log that error under one of its three codes; it changed no
    variable other than DOCKER_HOST and DOCKER_CERT_PATH (DOCKER_TLS_VERIFY
    is as it was), and the container is as it was. *)
Theorem setDockerClientEnvs_stops_at_first_failure (s s' : State) (err : Error) :
  setDockerClientEnvs D s = Returns (Some err) s' ->
  c s' = c s
  /\ (forall key, key <> "DOCKER_HOST" -> key <> "DOCKER_CERT_PATH" ->
                  env s' !! key = env s !! key)
  /\ exists code : Z,
       In code [3001; 3019; 3020]%Z
       /\ last (trace s')
          = Some (now s, Log ERROR "setDockerClientEnvs" "CONTAINER" code
                           [AErr (Some err)]).
Proof.
  unfold setDockerClientEnvs, os_Setenv. unfold_prims. intros H.
  crunch; (split; [reflexivity|]);
    (split; [intros key H1 H2; now rewrite ?lookup_insert_ne by congruence|]);
    eexists; rewrite last_snoc; (split; [|reflexivity]); cbn [In]; tauto.
Qed.

(** X8. NewDockerClient sets [dockerClient] only when it succeeds, and
    then to a client made from the DOCKER_ variables it has just written;
    when it fails the container is as it was. *)
Theorem NewDockerClient_uses_fresh_settings (s s' : State) (r : option Error) :
  NewDockerClient D s = Returns r s' ->
  match r with
  | Some _ => c s' = c s
  | None =>
      env s' = docker_env (env s)
      /\ exists cl : Client,
           c s' = set_dockerClient (Some cl) (c s)
           /\ Some (host cl) = docker_env (env s) !! "DOCKER_HOST"
           /\ Some (certPath cl) = docker_env (env s) !! "DOCKER_CERT_PATH"
           /\ Some (tlsVerify cl) = docker_env (env s) !! "DOCKER_TLS_VERIFY"
  end.
Proof.
  unfold NewDockerClient. intros H.
  apply bind_Returns in H as (e1 & s1 & H1 & H).
  destruct e1 as [e1|].
  - apply setDockerClientEnvs_moved in H1 as [_ H1]. unfold_prims. crunch.
    assumption.
  - apply setDockerClientEnvs_env in H1 as (E1 & C1 & _).
    unfold client_NewEnvClient in H. unfold_prims. crunch; [congruence|].
    split; [assumption|]. eexists. split; [rewrite C1; reflexivity|].
    cbn [host certPath tlsVerify]. rewrite E1. unfold docker_env.
    rewrite !lookup_insert_eq.
    rewrite (lookup_insert_ne _ "DOCKER_TLS_VERIFY" "DOCKER_CERT_PATH") by discriminate.
    rewrite (lookup_insert_ne _ "DOCKER_TLS_VERIFY" "DOCKER_HOST") by discriminate.
    rewrite (lookup_insert_ne _ "DOCKER_CERT_PATH" "DOCKER_HOST") by discriminate.
    rewrite !lookup_insert_eq. repeat split; reflexivity.
Qed.

(** X9. Wait returns the error of the wait call and nothing else: an
    exit status other than 0 is logged under code 3028 and does not make
    Wait fail, and the container record is not touched. *)
Theorem Wait_ignores_exit_status (s s' : State) (r : option Error) :
  Wait D s = Returns r s' ->
  r = snd (ContainerWait_ans D (calls s) (CID (c s)))
  /\ c s' = c s
  /\ error_codes (trace s')
     = error_codes (trace s)
       ++ (if Z.eqb (fst (ContainerWait_ans D (calls s) (CID (c s)))) 0
           then [] else [3028%Z]).
Proof.
  intros H. apply Wait_moved in H as (_ & Hc & Hr & He). auto.
Qed.

(** *** A run as a whole *)

Lemma starts_container_calls (tr : list (N * Event)) :
  starts tr = started (container_calls tr).
Proof.
  induction tr as [|[t e] tr IH]; [reflexivity|].
  unfold starts, container_calls, started in *. cbn [flat_map].
  rewrite flat_map_app, <- IH. destruct e; reflexivity.
Qed.

(** X14. The calls [Run] makes about a container are a beginning of
    create, start, wait, read the logs, remove, in this order, all after
    the first for the container the record ends up naming; the command
    asked for is the resolved one; and [Run] returns nil exactly when all
    five calls were made. *)
Theorem Run_calls_in_order fuel repositoryURL branch s r s' :
  Run D fuel repositoryURL branch s = Returns r s' ->
  exists (n : nat) (id : string),
    n <= 5
    /\ container_calls (trace s')
       = container_calls (trace s)
         ++ firstn n (protocol (request repositoryURL branch s) id)
    /\ (r = None <-> n = 5)
    /\ (2 <= n -> CID (c s') = id).
Proof.
  intros H. apply Run_stages in H as (n & id & (Hcalls & _) & Hn).
  exists n, id.
  destruct n as [|[|[|[|[|[|n]]]]]]; try contradiction;
    (split; [lia|]); (split; [exact Hcalls|]).
  - destruct Hn as [Hr _]. split; [split; [congruence | discriminate] | lia].
  - destruct Hn as [Hr _]. split; [split; [congruence | discriminate] | lia].
  - destruct Hn as (Hr & cl & t1 & ->).
    split; [split; [congruence | discriminate] | reflexivity].
  - destruct Hn as (Hr & cl & t1 & ->).
    split; [split; [congruence | discriminate] | reflexivity].
  - destruct Hn as (Hr & cl & t1 & t2 & _ & ->).
    split; [split; [congruence | discriminate] | reflexivity].
  - destruct Hn as (Hr & cl & t1 & t2 & body & k & _ & _ & ->).
    split; [split; [reflexivity | intros _; assumption] | reflexivity].
Qed.


(** X16. [Run] never changes the command template and the image of the
    record, however it ends. *)
Theorem Run_keeps_command_and_image fuel repositoryURL branch s r s' :
  Run D fuel repositoryURL branch s = Returns r s' ->
  Command (c s') = Command (c s) /\ Image_ (c s') = Image_ (c s).
Proof.
  intros H. apply Run_stages in H as (n & id & _ & Hn).
  destruct n as [|[|[|[|[|[|n]]]]]]; try contradiction.
  - destruct Hn as (_ & [-> | (cl & ->)]); split; reflexivity.
  - destruct Hn as (_ & cl & ->); split; reflexivity.
  - destruct Hn as (_ & cl & t1 & ->); split; reflexivity.
  - destruct Hn as (_ & cl & t1 & ->); split; reflexivity.
  - destruct Hn as (_ & cl & t1 & t2 & _ & ->); split; reflexivity.
  - destruct Hn as (_ & cl & t1 & t2 & body & k & _ & _ & ->); split; reflexivity.
Qed.

(** X17. A run that did not get to start a container returns an error
    and leaves identifier, status, output and both instants of the record
    as they were. *)
Theorem Run_without_start_leaves_record fuel repositoryURL branch s r s' :
  Run D fuel repositoryURL branch s = Returns r s' ->
  starts (trace s') = starts (trace s) ->
  r <> None
  /\ CID (c s') = CID (c s) /\ Status (c s') = Status (c s)
  /\ Output (c s') = Output (c s)
  /\ StartedAt (c s') = StartedAt (c s) /\ FinishedAt (c s') = FinishedAt (c s).
Proof.
  intros H Hstarts. apply Run_stages in H as (n & id & (Hcalls & _) & Hn).
  rewrite !starts_container_calls, Hcalls in Hstarts.
  unfold started in Hstarts. rewrite flat_map_app in Hstarts.
  apply (f_equal (@List.length string)) in Hstarts. rewrite length_app in Hstarts.
  destruct n as [|[|[|[|[|[|n]]]]]]; try contradiction;
    cbn [firstn protocol flat_map app List.length] in Hstarts; try lia.
  - destruct Hn as (Hr & [-> | (cl & ->)]); repeat split; assumption.
  - destruct Hn as (Hr & cl & ->); repeat split; assumption.
Qed.

End Methods.

(** *** The command *)

Lemma Replace_nonempty (s old new : string) :
  s <> "" -> old <> "" -> new <> "" -> strings.Replace s old new (-1) <> "".
Proof.
  intros Hs Hold Hnew. rewrite strings_facts.Replace_all_unfold by assumption.
  destruct s as [|x s]; [congruence|]. cbn [strings.replace_from].
  destruct (negb (strings.exhausted None) && strings.HasPrefix (String x s) old).
  - destruct new; [congruence | discriminate].
  - discriminate.
Qed.

(** X18. HandleCmd returns the empty string only when the repository
    URL, the branch or the template is empty: from three non-empty
    arguments it never does. *)
Theorem HandleCmd_empty_iff (repositoryURL branch cmd : string) :
  HandleCmd repositoryURL branch cmd = ""
  <-> repositoryURL = "" \/ branch = "" \/ cmd = "".
Proof.
  unfold HandleCmd.
  destruct (String.eqb_spec repositoryURL "") as [->|Hr];
    [split; [now left | reflexivity]|].
  destruct (String.eqb_spec branch "") as [->|Hb];
    [split; [now right; left | reflexivity]|].
  destruct (String.eqb_spec cmd "") as [->|Hc];
    [split; [now right; right | reflexivity]|].
  cbn [negb andb]. split.
  - intros H. exfalso. revert H. apply Replace_nonempty; try assumption;
      [|discriminate]. apply Replace_nonempty; [assumption | discriminate | assumption].
  - intros [? | [? | ?]]; contradiction.
Qed.

(** X19. A command that does not hold GIT_PRIVATE_SSH_KEY comes back
    from HandlePrivateSSHKey unchanged, whatever the private key is, and
    the state is not touched. *)
Theorem HandlePrivateSSHKey_without_token (rawString : string) (s : State) :
  strings.Contains rawString "GIT_PRIVATE_SSH_KEY" = false ->
  HandlePrivateSSHKey rawString s = Returns rawString s.
Proof.
  intros H. unfold HandlePrivateSSHKey. unfold_prims.
  now rewrite strings_facts.Replace_absent.
Qed.

(** *** The properties at work *)

Import samples scenarios.

Lemma setDockerClientEnvs_sets_docker_variables_witness :
  let s := boot retirejs deployment in
  exists s' : State,
    setDockerClientEnvs daemon_ok s = Returns None s'
    /\ c s' = c s
    /\ env s' !! "DOCKER_HOST" = Some "https://docker.internal:2376"
    /\ env s' !! "DOCKER_CERT_PATH" = Some "/certs"
    /\ env s' !! "DOCKER_TLS_VERIFY" = Some "1"
    /\ forall key,
         key <> "DOCKER_HOST" -> key <> "DOCKER_CERT_PATH" ->
         key <> "DOCKER_TLS_VERIFY" -> env s' !! key = env s !! key.
Proof.
  intros s.
  apply (setDockerClientEnvs_sets_docker_variables daemon_ok s).
  reflexivity.
Defined.

Lemma setDockerClientEnvs_twice_witness :
  let s := boot retirejs deployment in
  let s1 := after (setDockerClientEnvs daemon_ok s) s in
  let s2 := after (setDockerClientEnvs daemon_ok s1) s1 in
  env s2 = env s1.
Proof.
  intros s s1 s2.
  apply (setDockerClientEnvs_twice daemon_ok s s1 s2); reflexivity.
Defined.

Lemma setDockerClientEnvs_stops_at_first_failure_witness :
  let s := boot retirejs deployment in
  let s' := after (setDockerClientEnvs daemon_setenv_fails s) s in
  c s' = c s
  /\ (forall key, key <> "DOCKER_HOST" -> key <> "DOCKER_CERT_PATH" ->
                  env s' !! key = env s !! key)
  /\ exists code : Z,
       In code [3001; 3019; 3020]%Z
       /\ last (trace s')
          = Some (now s, Log ERROR "setDockerClientEnvs" "CONTAINER" code
                           [AErr (Some "invalid argument")]).
Proof.
  intros s s'.
  apply (setDockerClientEnvs_stops_at_first_failure daemon_setenv_fails s s'
           "invalid argument").
  reflexivity.
Defined.

Lemma NewDockerClient_uses_fresh_settings_witness :
  let s := boot retirejs deployment in
  let s' := after (NewDockerClient daemon_ok s) s in
  env s' = docker_env (env s)
  /\ exists cl : Client,
       c s' = set_dockerClient (Some cl) (c s)
       /\ Some (host cl) = docker_env (env s) !! "DOCKER_HOST"
       /\ Some (certPath cl) = docker_env (env s) !! "DOCKER_CERT_PATH"
       /\ Some (tlsVerify cl) = docker_env (env s) !! "DOCKER_TLS_VERIFY".
Proof.
  intros s s'.
  apply (NewDockerClient_uses_fresh_settings daemon_ok s s' None).
  reflexivity.
Defined.

Lemma Wait_ignores_exit_status_witness :
  let s := boot (set_CID "4f1c" (connected retirejs)) ∅ in
  let s' := after (Wait daemon_exit_status s) s in
  None = snd (ContainerWait_ans daemon_exit_status (calls s) (CID (c s)))
  /\ c s' = c s
  /\ error_codes (trace s')
     = error_codes (trace s)
       ++ (if Z.eqb (fst (ContainerWait_ans daemon_exit_status (calls s) (CID (c s)))) 0
           then [] else [3028%Z]).
Proof.
  intros s s'.
  apply (Wait_ignores_exit_status daemon_exit_status s s' None).
  reflexivity.
Defined.

Lemma PullImageWorker_image_present_witness :
  let s := boot (connected retirejs) ∅ in
  exists s' : State,
    (forall fuel, PullImageWorker daemon_ok (S fuel) s = Returns None s')
    /\ c s' = c s
    /\ now s' = (now s + 15 * Second + round_trip daemon_ok (calls s))%N
    /\ polls (trace s') = polls (trace s) ++ [(now s + 15 * Second)%N]
    /\ pulls (trace s') = pulls (trace s).
Proof.
  intros s.
  apply (PullImageWorker_image_present daemon_ok s
           {| host := "https://:2376"; certPath := ""; tlsVerify := "1" |}
           "sha256:9a0b" []);
    reflexivity.
Defined.

Lemma PullImageWorker_check_error_witness :
  let s := boot (connected retirejs) ∅ in
  exists s' : State,
    (forall fuel,
       PullImageWorker daemon_check_fails (S fuel) s
       = Returns (Some "daemon unreachable") s')
    /\ polls (trace s') = polls (trace s) ++ [(now s + 15 * Second)%N]
    /\ pulls (trace s') = pulls (trace s)
    /\ error_codes (trace s') = error_codes (trace s) ++ [3029%Z].
Proof.
  intros s.
  apply (PullImageWorker_check_error daemon_check_fails s
           {| host := "https://:2376"; certPath := ""; tlsVerify := "1" |}
           "daemon unreachable");
    reflexivity.
Defined.

Lemma PullImageWorker_pull_error_witness :
  let s := boot (connected retirejs) ∅ in
  exists s' : State,
    (forall fuel,
       PullImageWorker daemon_pull_fails (S fuel) s = Returns (Some "unauthorized") s')
    /\ polls (trace s') = polls (trace s) ++ [(now s + 15 * Second)%N]
    /\ pulls (trace s') = pulls (trace s) ++ [CanonicalURL (Image_ (c s))]
    /\ error_codes (trace s') = error_codes (trace s) ++ [3013%Z].
Proof.
  intros s.
  apply (PullImageWorker_pull_error daemon_pull_fails s
           {| host := "https://:2376"; certPath := ""; tlsVerify := "1" |}
           "unauthorized");
    reflexivity.
Defined.

Lemma PullImageWorker_success_means_image_seen_witness :
  let s := boot (connected retirejs) ∅ in
  let s' := after (PullImageWorker daemon_image_arrives 10 s) s in
  c s' = c s
  /\ exists checks fetches : nat,
       List.length (polls (trace s')) = List.length (polls (trace s)) + checks
       /\ List.length (pulls (trace s')) = List.length (pulls (trace s)) + fetches
       /\ fetches <= checks <= fetches + 1
       /\ (@None Error = None ->
           checks = fetches + 1
           /\ exists image images,
                ImageList_ans daemon_image_arrives (Nat.pred (calls s'))
                  (fullImageName (c s))
                = inr (image :: images)).
Proof.
  intros s s'.
  apply (PullImageWorker_success_means_image_seen daemon_image_arrives 10 s None s').
  vm_compute. reflexivity.
Defined.

Lemma Run_calls_in_order_witness :
  let s := boot retirejs ∅ in
  let s' := after (Run daemon_wait_fails 0 "git@x/y" "main" s) s in
  exists (n : nat) (id : string),
    n <= 5
    /\ container_calls (trace s')
       = container_calls (trace s)
         ++ firstn n (protocol (request "git@x/y" "main" s) id)
    /\ (Some "connection reset" = None <-> n = 5)
    /\ (2 <= n -> CID (c s') = id).
Proof.
  intros s s'.
  apply (Run_calls_in_order daemon_wait_fails 0 "git@x/y" "main" s
           (Some "connection reset") s').
  vm_compute. reflexivity.
Defined.


Lemma Run_keeps_command_and_image_witness :
  let s := boot retirejs ∅ in
  let s' := after (Run daemon_logs_fail 0 "git@x/y" "main" s) s in
  Command (c s') = Command (c s) /\ Image_ (c s') = Image_ (c s).
Proof.
  intros s s'.
  apply (Run_keeps_command_and_image daemon_logs_fail 0 "git@x/y" "main" s
           (Some "no such container") s').
  vm_compute. reflexivity.
Defined.

Lemma Run_without_start_leaves_record_witness :
  let s := boot retirejs ∅ in
  let s' := after (Run daemon_create_fails 0 "git@x/y" "main" s) s in
  Some "no such image" <> None
  /\ CID (c s') = CID (c s) /\ Status (c s') = Status (c s)
  /\ Output (c s') = Output (c s)
  /\ StartedAt (c s') = StartedAt (c s) /\ FinishedAt (c s') = FinishedAt (c s).
Proof.
  intros s s'.
  apply (Run_without_start_leaves_record daemon_create_fails 0 "git@x/y" "main" s
           (Some "no such image") s');
    vm_compute; reflexivity.
Defined.

Lemma HandleCmd_empty_iff_witness :
  HandleCmd "git@x/y" "" "scan.sh %GIT_REPO% %GIT_BRANCH%" = "".
Proof.
  apply (proj2 (HandleCmd_empty_iff "git@x/y" "" "scan.sh %GIT_REPO% %GIT_BRANCH%")).
  right. left. reflexivity.
Defined.

Lemma HandlePrivateSSHKey_without_token_witness :
  let s := boot retirejs {[ "HUSKYCI_API_GIT_PRIVATE_SSH_KEY" := "KEY" ]} in
  HandlePrivateSSHKey "retire --outputformat json" s
  = Returns "retire --outputformat json" s.
Proof.
  intros s.
  apply (HandlePrivateSSHKey_without_token "retire --outputformat json" s).
  reflexivity.
Defined.

End controller_facts.

(** ** A run, from its daemon's answers *)

Module run_facts.

Import docker container observations lifecycle container_facts controller_facts.
Local Open Scope go_scope.

Ltac record_simpl :=
  cbn [c now env trace calls selects with_c with_now with_env with_trace
       with_calls with_selects dockerClient CID Status Command Output Image_
       StartedAt FinishedAt set_dockerClient set_CID set_Status set_Output
       set_StartedAt set_FinishedAt] in *.

Ltac calls_done :=
  record_simpl; rewrite ?container_calls_snoc in *;
  cbn [container_calls flat_map snd app] in *;
  rewrite ?app_nil_r, <- ?app_assoc in *; cbn [app] in *;
  congruence.

Section Methods.

Variable D : Daemon.

(** A run that returns nil has been through steps 1 and 2. *)
Lemma Run_nil_prepared fuel repositoryURL branch s s' :
  Run D fuel repositoryURL branch s = Returns None s' ->
  exists (s1 : State) (isLoaded : bool) (s2 s3 : State),
    NewDockerClient D s = Returns None s1
    /\ ImageIsLoaded D s1 = Returns (isLoaded, None) s2
    /\ (if negb isLoaded then PullImageWorker D fuel else ret None) s2
       = Returns None s3.
Proof.
  unfold Run. intros H.
  apply bind_Returns in H as (e1 & s1 & H1 & H).
  destruct e1 as [e1|]; [unfold_prims; crunch|].
  apply bind_Returns in H as ([isLoaded e2] & s2 & H2 & H).
  destruct e2 as [e2|]; [unfold_prims; crunch|].
  apply bind_Returns in H as (e3 & s3 & H3 & H).
  destruct e3 as [e3|]; [unfold_prims; crunch|].
  now exists s1, isLoaded, s2, s3.
Qed.

(** From step 3 on the daemon's answers decide the run.  With steps 1
    and 2 through, [Run] returns; it has asked for the container
    [request repositoryURL branch s], and for the container the daemon
    answered with it has made the calls up to the first one that failed. *)
Lemma Run_from_creation fuel repositoryURL branch s s1 isLoaded s2 s3 :
  NewDockerClient D s = Returns None s1 ->
  ImageIsLoaded D s1 = Returns (isLoaded, None) s2 ->
  (if negb isLoaded then PullImageWorker D fuel else ret None) s2
  = Returns None s3 ->
  let config := request repositoryURL branch s in
  let k := calls s3 in
  exists (r : option Error) (s' : State),
    Run D fuel repositoryURL branch s = Returns r s'
    /\ match ContainerCreate_ans D k config with
       | inl err =>
           r = Some err
           /\ container_calls (trace s')
              = container_calls (trace s) ++ [ContainerCreate config]
       | inr id =>
           match ContainerStart_ans D (1 + k) id with
           | Some err =>
               r = Some err
               /\ container_calls (trace s')
                  = container_calls (trace s)
                    ++ [ContainerCreate config; ContainerStart id]
           | None =>
               match snd (ContainerWait_ans D (2 + k) id) with
               | Some err =>
                   r = Some err
                   /\ container_calls (trace s')
                      = container_calls (trace s)
                        ++ [ContainerCreate config; ContainerStart id;
                            ContainerWait id]
               | None =>
                   match ContainerLogs_ans D (3 + k) id true false with
                   | inl err | inr (inl err) =>
                       r = Some err
                       /\ container_calls (trace s')
                          = container_calls (trace s)
                            ++ [ContainerCreate config; ContainerStart id;
                                ContainerWait id; ContainerLogs id true false]
                   | inr (inr body) =>
                       r = None
                       /\ container_calls (trace s')
                          = container_calls (trace s) ++ protocol config id
                       /\ calls s' = 5 + k
                       /\ CID (c s') = id
                       /\ Output (c s') = body
                       /\ forall err : Error,
                            ContainerRemove_ans D (4 + k) id = Some err ->
                            exists t : N,
                              last (trace s')
                              = Some (t, Log ERROR "RUN" "CONTAINER" 3027
                                            [AErr (Some err)])
                   end
               end
           end
       end.
Proof.
  intros H1 H2 H3 config k.
  pose proof (NewDockerClient_moved _ _ _ _ H1) as [M1 C1].
  pose proof (ImageIsLoaded_moved _ _ _ _ H2) as [M2 C2].
  assert (M3 : moved s2 s3 [] /\ c s3 = c s2).
  { destruct isLoaded; cbn [negb] in H3.
    - unfold ret in H3. injection H3 as <-. split; [apply moved_refl | reflexivity].
    - now apply PullImageWorker_moved in H3. }
  destruct M3 as [M3 C3].
  pose proof (moved_trans _ _ _ [] [] M1 (moved_trans _ _ _ [] [] M2 M3)) as M.
  cbn [app] in M. destruct M as (Mc & Ms & _). rewrite app_nil_r in Mc.
  rewrite C2, C1 in C3.
  set (cl := {| host := default "" (env s1 !! "DOCKER_HOST");
                certPath := default "" (env s1 !! "DOCKER_CERT_PATH");
                tlsVerify := default "" (env s1 !! "DOCKER_TLS_VERIFY") |}) in *.
  clearbody cl. clear M1 M2 M3 C1 C2.
  unfold Run. unfold bind at 1. rewrite H1. unfold bind at 1. rewrite H2.
  unfold bind at 1. rewrite H3. clear H1 H2 H3.
  subst config k. unfold request. unfold secret in *.
  destruct s3 as [c3 now3 env3 trace3 calls3 selects3]. record_simpl. subst c3.
  unfold Create, HandlePrivateSSHKey, Start, Wait, ReadOutput, Remove, daemon_call.
  unfold_prims. record_simpl. unfold fullImageName. record_simpl.
  rewrite Ms. cbn [Nat.add].
  match goal with |- context [ContainerCreate ?cfg] => set (config := cfg) end.
  destruct (ContainerCreate_ans D calls3 config) as [err|id]; record_simpl.
  { eexists _, _. split; [reflexivity|]. split; [reflexivity | calls_done]. }
  destruct (ContainerStart_ans D (S calls3) id) as [err|]; record_simpl.
  { eexists _, _. split; [reflexivity|]. split; [reflexivity | calls_done]. }
  destruct (ContainerWait_ans D (S (S calls3)) id) as [statusCode [err|]];
    cbn [snd]; destruct (negb (statusCode =? 0)%Z); record_simpl;
    try (eexists _, _; split; [reflexivity|]; split; [reflexivity | calls_done]).
  all: destruct (ContainerLogs_ans D (S (S (S calls3))) id true false)
         as [err|[err|body]]; record_simpl;
       try (eexists _, _; split; [reflexivity|]; split; [reflexivity | calls_done]).
  all: destruct (ContainerRemove_ans D (S (S (S (S calls3)))) id) as [err|] eqn:E;
       record_simpl; eexists _, _; (split; [reflexivity|]);
       (split; [reflexivity|]); (split; [unfold protocol; calls_done|]);
       record_simpl; repeat (split; [reflexivity|]); intros err' E';
       [ injection E' as <-; rewrite last_snoc; eexists; reflexivity
       | discriminate ].
Qed.

(** C2 (amended). [Run] attempts the removal of the container exactly on
    the path on which start, wait and the reading of the output have all
    succeeded.  A run that returns nil made the five calls of the
    lifecycle as its last five calls to the daemon, the creation being
    call number [k]: the daemon answered the creation with the container
    [id], the start and the wait of [id] succeeded, its output was read,
    and the run made one removal attempt, of that container [id]; when
    the attempt failed the failure was logged under code 3027 and nil
    returned all the same.  A run that returns an error made no removal
    attempt. *)
Theorem Run_removes_on_success_only fuel repositoryURL branch s r s' :
  Run D fuel repositoryURL branch s = Returns r s' ->
  match r with
  | Some _ => removals (trace s') = removals (trace s)
  | None =>
      let config := request repositoryURL branch s in
      exists (k : nat) (id : string),
        calls s' = 5 + k
        /\ ContainerCreate_ans D k config = inr id
        /\ ContainerStart_ans D (1 + k) id = None
        /\ snd (ContainerWait_ans D (2 + k) id) = None
        /\ (exists body : string,
              ContainerLogs_ans D (3 + k) id true false = inr (inr body))
        /\ container_calls (trace s')
           = container_calls (trace s) ++ protocol config id
        /\ removals (trace s') = removals (trace s) ++ [id]
        /\ CID (c s') = id
        /\ forall err : Error,
             ContainerRemove_ans D (4 + k) id = Some err ->
             exists t : N,
               last (trace s')
               = Some (t, Log ERROR "RUN" "CONTAINER" 3027 [AErr (Some err)])
  end.
Proof.
  intros H. pose proof (Run_removals D _ _ _ _ _ _ H) as Q.
  destruct r as [err|]; [exact Q|].
  destruct (Run_nil_prepared _ _ _ _ _ H) as (s1 & isLoaded & s2 & s3 & H1 & H2 & H3).
  destruct (Run_from_creation fuel repositoryURL branch _ _ _ _ _ H1 H2 H3)
    as (r0 & s0 & HR & T).
  rewrite H in HR. injection HR as <- <-. cbv beta iota zeta in *.
  destruct (ContainerCreate_ans D (calls s3) (request repositoryURL branch s))
    as [e|id] eqn:E3; [destruct T; discriminate|].
  destruct (ContainerStart_ans D (1 + calls s3) id) eqn:E4;
    [destruct T; discriminate|].
  destruct (snd (ContainerWait_ans D (2 + calls s3) id)) eqn:E5;
    [destruct T; discriminate|].
  destruct (ContainerLogs_ans D (3 + calls s3) id true false)
    as [e|[e|body]] eqn:E6; [destruct T; discriminate..|].
  destruct T as (_ & Tc & Tn & Ti & _ & Tl).
  destruct Q as (s7 & s8 & Hq & H8 & Hc & Hn & Ht).
  apply Remove_inv in H8 as (_ & Hc8 & Hn8 & Ht8).
  exists (calls s3), id.
  split; [exact Tn|]. split; [exact E3|]. split; [exact E4|].
  split; [exact E5|]. split; [now exists body|]. split; [exact Tc|].
  split; [|split; [exact Ti | exact Tl]].
  unfold quiet in Hq. rewrite Ht, Ht8, <- Ti, Hc.
  destruct (ContainerRemove_ans D (calls s7) (CID (c s7)));
    rewrite ?app_nil_r, !removals_snoc, ?app_nil_r, Hq; reflexivity.
Qed.

(** C7 (amended). When the resolved command is the empty string, neither
    [Create] nor [Run] takes it for an error.  [Create] asks the daemon
    for a container whose command is [/bin/sh -c] followed by the empty
    string, and returns what the daemon answers.  [Run], once its client
    is there and its image is loaded, returns, and has asked for that
    same container; when the daemon answers with the container [id],
    [Run] starts [id], waits for it when the start succeeded, reads its
    output when the wait succeeded, and returns nil when the output was
    read: from the creation on, the daemon's answers alone decide the
    run. *)
Theorem Create_and_Run_with_empty_command repositoryURL branch s :
  HandleCmd repositoryURL branch (Command (c s)) = "" ->
  let config :=
    {| docker.Image := fullImageName (c s); Tty := true;
       Cmd := ["/bin/sh"; "-c"; ""] |} in
  (forall cl : Client,
     dockerClient (c s) = Some cl ->
     exists s' : State,
       Create D repositoryURL branch s
       = Returns match ContainerCreate_ans D (calls s) config with
                 | inl err => Some err
                 | inr _ => None
                 end s'
       /\ trace s' = trace s ++ [(now s, ContainerCreate config)]
       /\ c s' = match ContainerCreate_ans D (calls s) config with
                 | inl _ => c s
                 | inr id => set_CID id (c s)
                 end)
  /\ (forall (fuel : nat) (s1 : State) (isLoaded : bool) (s2 s3 : State),
        NewDockerClient D s = Returns None s1 ->
        ImageIsLoaded D s1 = Returns (isLoaded, None) s2 ->
        (if negb isLoaded then PullImageWorker D fuel else ret None) s2
        = Returns None s3 ->
        let k := calls s3 in
        exists (r : option Error) (s' : State),
          Run D fuel repositoryURL branch s = Returns r s'
          /\ match ContainerCreate_ans D k config with
             | inl err =>
                 r = Some err
                 /\ container_calls (trace s')
                    = container_calls (trace s) ++ [ContainerCreate config]
             | inr id =>
                 match ContainerStart_ans D (1 + k) id with
                 | Some err =>
                     r = Some err
                     /\ container_calls (trace s')
                        = container_calls (trace s)
                          ++ [ContainerCreate config; ContainerStart id]
                 | None =>
                     match snd (ContainerWait_ans D (2 + k) id) with
                     | Some err =>
                         r = Some err
                         /\ container_calls (trace s')
                            = container_calls (trace s)
                              ++ [ContainerCreate config; ContainerStart id;
                                  ContainerWait id]
                     | None =>
                         match ContainerLogs_ans D (3 + k) id true false with
                         | inl err | inr (inl err) =>
                             r = Some err
                             /\ container_calls (trace s')
                                = container_calls (trace s)
                                  ++ [ContainerCreate config; ContainerStart id;
                                      ContainerWait id;
                                      ContainerLogs id true false]
                         | inr (inr body) =>
                             r = None
                             /\ container_calls (trace s')
                                = container_calls (trace s)
                                  ++ protocol config id
                             /\ Output (c s') = body
                         end
                     end
                 end
             end).
Proof.
  intros Hcmd config.
  assert (Hreq : request repositoryURL branch s = config)
    by (unfold request; rewrite Hcmd; reflexivity).
  split.
  - intros cl Hcl.
    unfold Create, HandlePrivateSSHKey, daemon_call. unfold_prims.
    rewrite Hcl, Hcmd. change (strings.Replace "" _ _ _) with "". fold config.
    destruct (ContainerCreate_ans D (calls s) config);
      eexists; repeat split; reflexivity.
  - intros fuel s1 isLoaded s2 s3 H1 H2 H3 k.
    destruct (Run_from_creation fuel repositoryURL branch _ _ _ _ _ H1 H2 H3)
      as (r & s' & HR & T).
    cbv zeta in T. rewrite Hreq in T. fold k in T.
    exists r, s'. split; [exact HR|].
    destruct (ContainerCreate_ans D k config) as [e|id]; [exact T|].
    destruct (ContainerStart_ans D (1 + k) id); [exact T|].
    destruct (snd (ContainerWait_ans D (2 + k) id)); [exact T|].
    destruct (ContainerLogs_ans D (3 + k) id true false) as [e|[e|body]];
      [exact T..|].
    destruct T as (Tr & Tc & _ & _ & To & _). now repeat split.
Qed.

End Methods.

Import samples scenarios.

Lemma Run_removes_on_success_only_witness :
  let s0 := boot retirejs ∅ in
  let s' := after (Run daemon_remove_fails 0 "git@x/y" "main" s0) s0 in
  let config :=
    {| docker.Image := "huskyci/retirejs:latest"; Tty := true;
       Cmd := ["/bin/sh"; "-c"; "scan.sh git@x/y main"] |} in
  exists (k : nat) (id : string),
    calls s' = 5 + k
    /\ ContainerCreate_ans daemon_remove_fails k config = inr id
    /\ ContainerStart_ans daemon_remove_fails (1 + k) id = None
    /\ snd (ContainerWait_ans daemon_remove_fails (2 + k) id) = None
    /\ (exists body : string,
          ContainerLogs_ans daemon_remove_fails (3 + k) id true false
          = inr (inr body))
    /\ container_calls (trace s')
       = container_calls (trace s0) ++ protocol config id
    /\ removals (trace s') = removals (trace s0) ++ [id]
    /\ CID (c s') = id
    /\ forall err : Error,
         ContainerRemove_ans daemon_remove_fails (4 + k) id = Some err ->
         exists t : N,
           last (trace s')
           = Some (t, Log ERROR "RUN" "CONTAINER" 3027 [AErr (Some err)]).
Proof.
  intros s0 s' config.
  apply (Run_removes_on_success_only daemon_remove_fails 0 "git@x/y" "main"
           s0 None s').
  vm_compute. reflexivity.
Defined.

Lemma Create_and_Run_with_empty_command_witness :
  let s := boot (connected retirejs) ∅ in
  let config :=
    {| docker.Image := "huskyci/retirejs:latest"; Tty := true;
       Cmd := ["/bin/sh"; "-c"; ""] |} in
  (exists s' : State,
     Create daemon_ok "" "main" s = Returns None s'
     /\ trace s' = trace s ++ [(now s, ContainerCreate config)]
     /\ c s' = set_CID "4f1c" (c s))
  /\ (exists (r : option Error) (s' : State),
        Run daemon_ok 0 "" "main" s = Returns r s'
        /\ r = None
        /\ container_calls (trace s')
           = container_calls (trace s) ++ protocol config "4f1c"
        /\ Output (c s') = "[]").
Proof.
  intros s config.
  pose (s1 := after (NewDockerClient daemon_ok s) s).
  pose (s2 := after (ImageIsLoaded daemon_ok s1) s1).
  split.
  - apply (proj1 (Create_and_Run_with_empty_command daemon_ok "" "main" s eq_refl)
             {| host := "https://:2376"; certPath := ""; tlsVerify := "1" |}).
    reflexivity.
  - apply (proj2 (Create_and_Run_with_empty_command daemon_ok "" "main" s eq_refl)
             0 s1 true s2 s2); reflexivity.
Defined.

End run_facts.
